(** * Business-card scanner: the App component of [src/App.tsx]

    A shallow embedding of the component's state, of its two acquisition
    handlers ([pickAndRecognize], [captureAndRecognize]), of the permission
    effect run at mount, of [validateCard] and of the rendered element tree,
    followed by the properties of the acquisition / interpretation /
    validation / presentation pipeline.

    Asynchronous code is embedded in a small free monad [async]: state
    setters are synchronous writes, [await] suspends the handler on an
    external call, and a rejected promise is a thrown error that [try_catch]
    handles the way the source's [try]/[catch] and [.then(..).catch(..)] do.

    The last part puts the pieces together as the mounted component: the
    permission effect started at mount, button presses that start a
    handler when the tree on display holds the button, and in-flight calls
    settling in any order; invariants are proved over every sequence of
    such events. *)

From Stdlib Require Import String Ascii List Bool Arith Lia.
Import ListNotations.
Open Scope string_scope.

Set Implicit Arguments.
Set Warnings "-register-all".

(* ================================================================== *)
(** ** Data *)

(** A JS object used as a mapping from field name to a sequence of strings.
    The list is the object's own-property enumeration order, which is what
    [Object.keys] returns and what the renderer iterates over. *)
Definition obj : Type := list (string * list string).

(** [Object.keys(o)] *)
Definition Object_keys (o : obj) : list string := map fst o.

(** [o[key]]: the value of the first (only) property of that name,
    [undefined] when there is none. *)
Fixpoint get (o : obj) (key : string) : option (list string) :=
  match o with
  | [] => None
  | (k, v) :: o' => if String.eqb k key then Some v else get o' key
  end.

(** A JS object never has two properties of one name. *)
Definition wf_obj (o : obj) : Prop := NoDup (Object_keys o).

(** [Platform.OS] is a string; the source compares it with ['ios']. *)
Definition PlatformOS : Type := string.

(** Modelled from the spec: the type [CameraPermissionRequestResult] is
    declared by the camera library, not by this repository; the spec gives
    the statuses a permission request resolves to. *)
Inductive CameraPermissionRequestResult : Type :=
| granted
| denied
| restricted
| not_determined.

Definition is_denied (r : CameraPermissionRequestResult) : bool :=
  match r with denied => true | _ => false end.

(** What the picker resolves to ([ImageOrVideo]) and what the camera
    resolves to ([PhotoFile]); only the locator and the optional size and
    type attributes are kept. *)
Record ImageOrVideo : Type := mkImageOrVideo {
  iv_path : string;
  iv_width : nat;
  iv_height : nat;
  iv_mime : string
}.

Record PhotoFile : Type := mkPhotoFile {
  pf_path : string;
  pf_width : nat;
  pf_height : nat
}.

(** The object handed to [interpretImage]. Every attribute may be missing:
    [path] is [undefined] when it is read through [image?.path] on an
    [undefined] image. *)
Record CapturedImage : Type := mkCapturedImage {
  path : option string;
  width : option nat;
  height : option nat;
  mime : option string
}.

Definition ofImageOrVideo (res : ImageOrVideo) : CapturedImage :=
  mkCapturedImage (Some (iv_path res)) (Some (iv_width res))
                  (Some (iv_height res)) (Some (iv_mime res)).

(** [{...image, path: imagePath}]: spreading [undefined] adds nothing. *)
Definition spread_with_path (image : option PhotoFile)
           (imagePath : option string) : CapturedImage :=
  match image with
  | Some img =>
      mkCapturedImage imagePath (Some (pf_width img)) (Some (pf_height img)) None
  | None => mkCapturedImage imagePath None None None
  end.

(** Modelled from the spec: [interpretImage] lives in [./api/interpret],
    which is not part of the sources; the spec gives its answer as
    [{data?: mapping<string, sequence<string>>}]. *)
Record Response : Type := mkResponse {
  data : option obj
}.

Record PickerOptions : Type := mkPickerOptions { cropping : bool }.

Inductive QualityPrioritization : Type := quality | balanced | speed.
Inductive Flash : Type := flash_on | flash_off | flash_auto.

Record TakePhotoOptions : Type := mkTakePhotoOptions {
  qualityPrioritization : QualityPrioritization;
  enableAutoStabilization : bool;
  flash : Flash;
  skipMetadata : bool
}.

(* ================================================================== *)
(** ** Component state: the five [useState] cells *)

Record State : Type := mkState {
  processedText : string;
  hasPermissions : bool;
  isProcessingText : bool;
  cardIsFound : bool;
  contactInfo : obj
}.

Definition initialState : State :=
  mkState ("Scan a Card to see" ++ String (Ascii.ascii_of_nat 10) "Contact info here")
          false false false [].

(** The writes a handler can perform. [consoleLog] and [alert] leave the
    component state alone. *)
Inductive effect : Type :=
| setProcessedText (t : string)
| setHasPermissions (b : bool)
| setIsProcessingText (b : bool)
| setCardIsFound (b : bool)
| setContactInfo (o : obj)
| consoleLog (label : string) (err : string)
| alert (title : string) (message : string) (buttons : list string).

Definition apply_effect (e : effect) (s : State) : State :=
  match e with
  | setProcessedText t =>
      mkState t (hasPermissions s) (isProcessingText s) (cardIsFound s) (contactInfo s)
  | setHasPermissions b =>
      mkState (processedText s) b (isProcessingText s) (cardIsFound s) (contactInfo s)
  | setIsProcessingText b =>
      mkState (processedText s) (hasPermissions s) b (cardIsFound s) (contactInfo s)
  | setCardIsFound b =>
      mkState (processedText s) (hasPermissions s) (isProcessingText s) b (contactInfo s)
  | setContactInfo o =>
      mkState (processedText s) (hasPermissions s) (isProcessingText s) (cardIsFound s) o
  | consoleLog _ _ => s
  | alert _ _ _ => s
  end.

(* ================================================================== *)
(** ** External asynchronous calls *)

Inductive call : Type :=
| openPicker (opts : PickerOptions)
| takePhoto (opts : TakePhotoOptions)
| interpretImage (image : CapturedImage)
| requestCameraPermission
| requestMicrophonePermission.

(** The type of the value a call's promise is fulfilled with.
    [interpretImage] may answer [undefined] (the source reads the answer
    through [result?.data]). *)
Definition answer (c : call) : Type :=
  match c with
  | openPicker _ => ImageOrVideo
  | takePhoto _ => PhotoFile
  | interpretImage _ => option Response
  | requestCameraPermission => CameraPermissionRequestResult
  | requestMicrophonePermission => CameraPermissionRequestResult
  end.

Inductive settled (X : Type) : Type :=
| Fulfilled (x : X)
| Rejected (err : string).
Arguments Rejected {X} err.

(* ================================================================== *)
(** ** The [async] monad *)

Inductive async (A : Type) : Type :=
| Ret (a : A)
| Throw (err : string)
| Do (e : effect) (k : async A)
| Await (c : call) (k : settled (answer c) -> async A).
Arguments Throw {A} err.

Fixpoint bind {A B : Type} (m : async A) (f : A -> async B) : async B :=
  match m with
  | Ret a => f a
  | Throw err => Throw err
  | Do e k => Do e (bind k f)
  | Await c k => Await c (fun o => bind (k o) f)
  end.

(** [try { body } catch (err) { handler }] *)
Fixpoint try_catch {A : Type} (body : async A) (handler : string -> async A)
  : async A :=
  match body with
  | Ret a => Ret a
  | Throw err => handler err
  | Do e k => Do e (try_catch k handler)
  | Await c k => Await c (fun o => try_catch (k o) handler)
  end.

Definition perform (e : effect) : async unit := Do e (Ret tt).

(** [await c]: suspend on the call; a rejection is thrown at the
    suspension point. *)
Definition await (c : call) : async (answer c) :=
  Await c (fun o => match o with
                    | Fulfilled x => Ret x
                    | Rejected err => Throw err
                    end).

Declare Scope async_scope.
Delimit Scope async_scope with async.
Notation "x <- m ;; k" := (bind m (fun x => k))
  (at level 61, m at next level, right associativity) : async_scope.
Notation "m ;; k" := (bind m (fun _ => k))
  (at level 61, right associativity) : async_scope.
Open Scope async_scope.

(** [promise.then(onFulfilled).catch(onRejected)]: the handler sees the
    rejections of the promise and of the [then] callback alike. *)
Definition then_catch (c : call) (onFulfilled : answer c -> async unit)
           (onRejected : string -> async unit) : async unit :=
  try_catch (res <- await c ;; onFulfilled res) onRejected.

(* ================================================================== *)
(** ** The component's logic *)

Definition notFoundMessage : string :=
  "No valid Business Card found, please try again!!".

(** [validateCard], lines 37-47. [keys?.length] is truthy exactly when
    the key array is not empty. *)
Definition validateCard (result : obj) : async unit :=
  let keys := Object_keys result in
  if negb (Nat.eqb (length keys) 0) then
    perform (setContactInfo result) ;;
    perform (setCardIsFound true)
  else
    perform (setProcessedText notFoundMessage) ;;
    perform (setCardIsFound false).

(** [result?.data] *)
Definition payload (result : option Response) : option obj :=
  match result with
  | Some r => data r
  | None => None
  end.

(** [result?.data ?? {}] *)
Definition data_or_empty (result : option Response) : obj :=
  match payload result with
  | Some d => d
  | None => []
  end.

(** [pickAndRecognize], lines 49-63. *)
Definition pickAndRecognize : async unit :=
  then_catch (openPicker (mkPickerOptions false))
    (fun res =>
       perform (setIsProcessingText true) ;;
       result <- await (interpretImage (ofImageOrVideo res)) ;;
       perform (setIsProcessingText false) ;;
       validateCard (data_or_empty result))
    (fun err =>
       perform (consoleLog "err:" err) ;;
       perform (setIsProcessingText false)).

(** [image?.path] *)
Definition image_path (image : option PhotoFile) : option string :=
  match image with
  | Some img => Some (pf_path img)
  | None => None
  end.

(** String conversion inside a template literal: [undefined] prints as
    the word. *)
Definition to_template (v : option string) : string :=
  match v with
  | Some s => s
  | None => "undefined"
  end.

(** Lines 74-75:
    [Platform.OS === 'ios' ? image?.path : `file://${image?.path}`] *)
Definition imagePath (os : PlatformOS) (image : option PhotoFile)
  : option string :=
  if String.eqb os "ios" then image_path image
  else Some ("file://" ++ to_template (image_path image)).

Definition photoOptions : TakePhotoOptions :=
  mkTakePhotoOptions quality true flash_on true.

(** [await camera.current?.takePhoto(opts)]: with the reference unset no
    call is made and the awaited value is [undefined]. *)
Definition take_photo_opt (camera : bool) : async (option PhotoFile) :=
  if camera then (img <- await (takePhoto photoOptions) ;; Ret (Some img))
  else Ret None.

(** [captureAndRecognize], lines 65-86. [camera] tells whether
    [camera.current] is set. *)
Definition captureAndRecognize (os : PlatformOS) (camera : bool) : async unit :=
  try_catch
    (perform (setIsProcessingText true) ;;
     image <- take_photo_opt camera ;;
     let imagePath := imagePath os image in
     result <- await (interpretImage (spread_with_path image imagePath)) ;;
     perform (setIsProcessingText false) ;;
     validateCard (data_or_empty result))
    (fun err =>
       perform (consoleLog "err:" err) ;;
       perform (setIsProcessingText false)).

(** The permission effect run once at mount, lines 88-113. *)
Definition requestPermissions : async unit :=
  cameraPermission <- await requestCameraPermission ;;
  microPhonePermission <- await requestMicrophonePermission ;;
  if is_denied cameraPermission || is_denied microPhonePermission then
    perform (alert "Allow Permissions"
      "Please allow camera and microphone permission to access camera features"
      ["Go to Settings"; "Cancel"]) ;;
    perform (setHasPermissions false)
  else
    perform (setHasPermissions true).

(* ================================================================== *)
(** ** Running a handler *)

(** The outside world: how each external call settles. *)
Definition env : Type := forall c : call, settled (answer c).

Definition is_rejected {X : Type} (o : settled X) : bool :=
  match o with
  | Fulfilled _ => false
  | Rejected _ => true
  end.

(** Where a handler stands once its synchronous prefix has run. *)
Inductive suspended (A : Type) : Type :=
| Finished (r : settled A)
| Waiting (c : call) (k : settled (answer c) -> async A).
Arguments Waiting {A} c k.

(** Run up to the first suspension point. *)
Fixpoint run_sync {A : Type} (p : async A) (s : State) : State * suspended A :=
  match p with
  | Ret a => (s, Finished (Fulfilled a))
  | Throw err => (s, Finished (Rejected err))
  | Do e k => run_sync k (apply_effect e s)
  | Await c k => (s, Waiting c k)
  end.

(** The pending call and the state on display while it is pending. *)
Definition suspension {A : Type} (p : async A) (s : State)
  : option (call * State) :=
  match run_sync p s with
  | (s', Waiting c _) => Some (c, s')
  | (_, Finished _) => None
  end.

(** One suspension of a run: the call awaited, the state on display while
    the call is in flight, and whether the call was rejected. *)
Record observation : Type := mkObservation {
  pending : call;
  observed : State;
  failed : bool
}.

Fixpoint trace {A : Type} (w : env) (p : async A) (s : State)
  : list observation :=
  match p with
  | Ret _ => []
  | Throw _ => []
  | Do e k => trace w k (apply_effect e s)
  | Await c k => mkObservation c s (is_rejected (w c)) :: trace w (k (w c)) s
  end.

(** The state once the handler has run to its end. *)
Fixpoint final {A : Type} (w : env) (p : async A) (s : State) : State :=
  match p with
  | Ret _ => s
  | Throw _ => s
  | Do e k => final w k (apply_effect e s)
  | Await c k => final w (k (w c)) s
  end.

(** How the handler's own promise settles. *)
Fixpoint outcome {A : Type} (w : env) (p : async A) : settled A :=
  match p with
  | Ret a => Fulfilled a
  | Throw err => Rejected err
  | Do _ k => outcome w k
  | Await c k => outcome w (k (w c))
  end.

(** The calls of a run, in order. *)
Definition calls {A : Type} (w : env) (p : async A) (s : State) : list call :=
  map pending (trace w p s).

(** Some suspension point of the run failed. *)
Definition some_failure {A : Type} (w : env) (p : async A) (s : State) : bool :=
  existsb failed (trace w p s).

(* ================================================================== *)
(** ** The rendered tree, lines 115-171 *)

Module styles.
Inductive t : Type :=
| container | infoWrapper | infoContainer | camera | title | galleryBtn
| btnText | errorText | captureBtnContainer | activityIndicator
| contactRowKey | contactRowValue | contactRow.

Definition eqb (a b : t) : bool :=
  match a, b with
  | container, container | infoWrapper, infoWrapper
  | infoContainer, infoContainer | camera, camera | title, title
  | galleryBtn, galleryBtn | btnText, btnText | errorText, errorText
  | captureBtnContainer, captureBtnContainer
  | activityIndicator, activityIndicator
  | contactRowKey, contactRowKey | contactRowValue, contactRowValue
  | contactRow, contactRow => true
  | _, _ => false
  end.
End styles.

Definition CameraDevice : Type := string.

Inductive handler : Type :=
| onPickAndRecognize
| onCaptureAndRecognize.

Inductive element : Type :=
| SafeAreaView (st : styles.t) (children : list element)
| StatusBar
| Text (st : option styles.t) (content : string)
| Pressable (st : styles.t) (onPress : handler) (children : list element)
| View (st : option styles.t) (children : list element)
| CameraView (st : styles.t) (device : CameraDevice)
| Image
| ActivityIndicator (st : styles.t)
| ScrollView (st : styles.t) (children : list element).

(** One value of a field, lines 156-158. *)
Definition valueText (row : string) : element :=
  Text (Some styles.contactRowValue) row.

(** One row of the contact list, lines 152-163:
    [contactInfo[key]?.length] is truthy for a non-empty sequence only. *)
Definition contactRowOf (contactInfo : obj) (key : string) : element :=
  View (Some styles.contactRow)
       (Text (Some styles.contactRowKey) (key ++ ":")
        :: match get contactInfo key with
           | Some (r :: rows) => map valueText (r :: rows)
           | _ => [valueText "Undefined"]
           end).

(** Lines 122-140: [device && hasPermissions ? ... : ...] *)
Definition cameraPart (device : option CameraDevice) (s : State) : element :=
  match device with
  | Some d =>
      if hasPermissions s then
        View None
          [CameraView styles.camera d;
           Pressable styles.captureBtnContainer onCaptureAndRecognize [Image]]
      else Text None "No Camera Found"
  | None => Text None "No Camera Found"
  end.

(** Lines 141-168. *)
Definition statusPart (s : State) : element :=
  if isProcessingText s then ActivityIndicator styles.activityIndicator
  else if cardIsFound s then
    ScrollView styles.infoWrapper
      (map (contactRowOf (contactInfo s)) (Object_keys (contactInfo s)))
  else Text (Some styles.errorText) (processedText s).

Definition App (device : option CameraDevice) (s : State) : element :=
  SafeAreaView styles.container
    [StatusBar;
     Text (Some styles.title) "Business Card Scanner";
     Pressable styles.galleryBtn onPickAndRecognize
       [Text (Some styles.btnText) "Pick from Gallery"];
     cameraPart device s;
     statusPart s].

Definition children_of (e : element) : list element :=
  match e with
  | SafeAreaView _ cs => cs
  | Pressable _ _ cs => cs
  | View _ cs => cs
  | ScrollView _ cs => cs
  | _ => []
  end.

(** Number of nodes of the tree that satisfy [P]. *)
Fixpoint count (P : element -> bool) (e : element) : nat :=
  (if P e then 1 else 0) +
  match e with
  | SafeAreaView _ cs => list_sum (map (count P) cs)
  | Pressable _ _ cs => list_sum (map (count P) cs)
  | View _ cs => list_sum (map (count P) cs)
  | ScrollView _ cs => list_sum (map (count P) cs)
  | _ => 0
  end.

Definition isBusyIndicator (e : element) : bool :=
  match e with ActivityIndicator _ => true | _ => false end.

Definition isFieldList (e : element) : bool :=
  match e with ScrollView _ _ => true | _ => false end.

Definition isMessageText (e : element) : bool :=
  match e with
  | Text (Some st) _ => styles.eqb st styles.errorText
  | _ => false
  end.

(** The strings a tree shows, in document order. *)
Fixpoint texts (e : element) : list string :=
  match e with
  | Text _ content => [content]
  | SafeAreaView _ cs => concat (map texts cs)
  | Pressable _ _ cs => concat (map texts cs)
  | View _ cs => concat (map texts cs)
  | ScrollView _ cs => concat (map texts cs)
  | _ => []
  end.

(* ================================================================== *)
(** ** Concrete worlds *)

(** A world given by the way each capability settles. *)
Definition world (pick : settled ImageOrVideo) (shot : settled PhotoFile)
           (interp : CapturedImage -> settled (option Response))
           (cam mic : settled CameraPermissionRequestResult) : env :=
  fun c =>
    match c as c0 return settled (answer c0) with
    | openPicker _ => pick
    | takePhoto _ => shot
    | interpretImage image => interp image
    | requestCameraPermission => cam
    | requestMicrophonePermission => mic
    end.

(** A world in which only the two permission requests matter. *)
Definition answering (cam mic : CameraPermissionRequestResult) : env :=
  world (Rejected "cancelled") (Rejected "no camera")
        (fun _ => Rejected "offline") (Fulfilled cam) (Fulfilled mic).

Definition sampleImage : ImageOrVideo :=
  mkImageOrVideo "/storage/card.jpg" 640 480 "image/jpeg".

Definition samplePhoto : PhotoFile :=
  mkPhotoFile "/data/cache/photo.jpg" 1920 1080.

(** Scenario B of the spec. *)
Definition scenarioB : obj := [("email", ["a@x.com"]); ("phone", [])].

(** A world in which acquisition succeeds and the service answers [r]. *)
Definition serving (r : settled (option Response)) : env :=
  world (Fulfilled sampleImage) (Fulfilled samplePhoto) (fun _ => r)
        (Fulfilled granted) (Fulfilled granted).

(** [s] with the busy flag cleared. *)
Definition idle (s : State) : State := apply_effect (setIsProcessingText false) s.

(** [s] with the busy flag raised. *)
Definition busy (s : State) : State := apply_effect (setIsProcessingText true) s.

(** The photo a capture run works on: [undefined] when the camera
    reference is unset, a failure when [takePhoto] is rejected. *)
Definition photo_of (w : env) (camera : bool) : settled (option PhotoFile) :=
  if camera then
    match w (takePhoto photoOptions) with
    | Fulfilled img => Fulfilled (Some img)
    | Rejected err => Rejected err
    end
  else Fulfilled None.

(** What a field of the mapping is to show: its key followed by a colon,
    then its values in order, or the fallback when it has none. *)
Definition fieldTexts (field : string * list string) : list string :=
  (fst field ++ ":")
  :: match snd field with
     | [] => ["Undefined"]
     | values => values
     end.

(** What a field of the mapping is to render as: a row holding one text
    node in the key style and one text node in the value style for each
    of its values, or for the fallback. *)
Definition fieldRow (field : string * list string) : element :=
  View (Some styles.contactRow)
       (Text (Some styles.contactRowKey) (fst field ++ ":")
        :: map (fun value => Text (Some styles.contactRowValue) value)
               (match snd field with
                | [] => ["Undefined"]
                | values => values
                end)).

(** Scenario B on display. *)
Definition foundB : State :=
  mkState (processedText initialState) true false true scenarioB.

(* ================================================================== *)
(** ** What a run performs *)

(** The writes, logs and alerts of a run, in order. *)
Fixpoint performed {A : Type} (w : env) (p : async A) : list effect :=
  match p with
  | Ret _ => []
  | Throw _ => []
  | Do e k => e :: performed w k
  | Await c k => performed w (k (w c))
  end.

(** The reasons of the calls of a run that were rejected, in order. *)
Fixpoint rejections {A : Type} (w : env) (p : async A) : list string :=
  match p with
  | Ret _ => []
  | Throw _ => []
  | Do _ k => rejections w k
  | Await c k =>
      match w c with
      | Fulfilled _ => []
      | Rejected err => [err]
      end ++ rejections w (k (w c))
  end.

Definition is_consoleLog (e : effect) : bool :=
  match e with consoleLog _ _ => true | _ => false end.

Definition is_alert (e : effect) : bool :=
  match e with alert _ _ _ => true | _ => false end.

Definition is_setHasPermissions (e : effect) : bool :=
  match e with setHasPermissions _ => true | _ => false end.

(** The setters of the four cells the acquisition pipeline owns. *)
Definition writes_pipeline (e : effect) : bool :=
  match e with
  | setProcessedText _ | setIsProcessingText _
  | setCardIsFound _ | setContactInfo _ => true
  | _ => false
  end.

Definition is_interpretImage (c : call) : bool :=
  match c with interpretImage _ => true | _ => false end.

Definition handler_eqb (a b : handler) : bool :=
  match a, b with
  | onPickAndRecognize, onPickAndRecognize => true
  | onCaptureAndRecognize, onCaptureAndRecognize => true
  | _, _ => false
  end.

(** A [Pressable] wired to the handler [h]. *)
Definition isButton (h : handler) (e : element) : bool :=
  match e with
  | Pressable _ h' _ => handler_eqb h h'
  | _ => false
  end.

Definition isCameraView (e : element) : bool :=
  match e with CameraView _ _ => true | _ => false end.

(** The tree holds a button for [h]. *)
Definition offers (h : handler) (e : element) : bool :=
  negb (Nat.eqb (count (isButton h) e) 0).

(* ================================================================== *)
(** ** The mounted component: presses and settlements interleaved

    Nothing in the tree is disabled while a run is in flight, so runs may
    overlap. A run owns the thread between two suspension points; at a
    suspension point any other in-flight call may settle, or a button may
    be pressed. *)

(** A suspended run: the call it awaits and what it does next. *)
Record task : Type := mkTask {
  awaited : call;
  resume : settled (answer awaited) -> async unit
}.

Record system : Type := mkSystem {
  ui : State;
  inflight : list task
}.

(** Run [p] up to its next suspension point, beside the runs [others]. *)
Definition advance (p : async unit) (s : State) (others : list task) : system :=
  match run_sync p s with
  | (s', Waiting c k) => mkSystem s' (others ++ [mkTask c k])
  | (s', Finished _) => mkSystem s' others
  end.

(** What [onPress] runs. The capture button sits beside the [Camera]
    element that fills [camera.current], so the reference is set whenever
    the button can be pressed. *)
Definition handler_program (os : PlatformOS) (h : handler) : async unit :=
  match h with
  | onPickAndRecognize => pickAndRecognize
  | onCaptureAndRecognize => captureAndRecognize os true
  end.

Inductive event : Type :=
| press (h : handler)
| settles (i : nat) (w : env).

Definition remove_nth {A : Type} (i : nat) (l : list A) : list A :=
  firstn i l ++ skipn (S i) l.

(** A press does something only when the tree on display holds the
    button; a settlement resumes the [i]-th in-flight run with the answer
    of the world [w]. *)
Definition step (os : PlatformOS) (device : option CameraDevice)
           (sys : system) (ev : event) : system :=
  match ev with
  | press h =>
      if offers h (App device (ui sys))
      then advance (handler_program os h) (ui sys) (inflight sys)
      else sys
  | settles i w =>
      match nth_error (inflight sys) i with
      | Some t =>
          advance (resume t (w (awaited t))) (ui sys)
                  (remove_nth i (inflight sys))
      | None => sys
      end
  end.

Definition run_from (os : PlatformOS) (device : option CameraDevice)
           (sys : system) (evs : list event) : system :=
  fold_left (step os device) evs sys.

(** The component right after mount: the initial state, with the
    permission effect suspended on its first request. *)
Definition mounted : system := advance requestPermissions initialState [].

(** The found flag is only up over a mapping that has a key, and the
    message is one of the two texts of the source. *)
Definition coherent (s : State) : Prop :=
  (cardIsFound s = true -> Object_keys (contactInfo s) <> [])
  /\ (processedText s = processedText initialState
      \/ processedText s = notFoundMessage).

(** [p], started in [s], is in a state satisfying [I] at each of its
    suspension points and at its end, whatever the calls answer and
    however the state was changed (within [I]) while it was suspended. *)
Fixpoint keeps (I : State -> Prop) {A : Type} (p : async A) (s : State) : Prop :=
  match p with
  | Ret _ => I s
  | Throw _ => I s
  | Do e k => keeps I k (apply_effect e s)
  | Await c k => I s /\ forall o s', I s' -> keeps I (k o) s'
  end.

(** The state on display is coherent and so is whatever an in-flight run
    does next. *)
Definition sound (sys : system) : Prop :=
  coherent (ui sys)
  /\ Forall (fun t => forall o s, coherent s -> keeps coherent (resume t o) s)
            (inflight sys).

(** [p], started in [s], has the busy flag down when it ends, whatever
    the calls answer and whatever the state is when it is resumed. *)
Fixpoint settles_idle {A : Type} (p : async A) (s : State) : Prop :=
  match p with
  | Ret _ => isProcessingText s = false
  | Throw _ => isProcessingText s = false
  | Do e k => settles_idle k (apply_effect e s)
  | Await c k => forall o s', settles_idle (k o) s'
  end.

(** [p] never writes the busy flag. *)
Fixpoint flagless {A : Type} (p : async A) : Prop :=
  match p with
  | Ret _ => True
  | Throw _ => True
  | Do e k =>
      (forall s, isProcessingText (apply_effect e s) = isProcessingText s)
      /\ flagless k
  | Await c k => forall o, flagless (k o)
  end.

(** An in-flight run that will put the busy flag down. *)
Definition clearing (t : task) : Prop :=
  forall o s, settles_idle (resume t o) s.

(** Every in-flight run either will put the busy flag down or never
    writes it, and while the flag is up one of the former is in flight. *)
Definition attended (sys : system) : Prop :=
  Forall (fun t => clearing t \/ forall o, flagless (resume t o)) (inflight sys)
  /\ (isProcessingText (ui sys) = true -> Exists clearing (inflight sys)).

Definition is_takePhoto (c : call) : bool :=
  match c with takePhoto _ => true | _ => false end.

Definition is_permission_request (c : call) : bool :=
  match c with
  | requestCameraPermission | requestMicrophonePermission => true
  | _ => false
  end.

Definition takes_photo (t : task) : bool := is_takePhoto (awaited t).

Definition asks_permission (t : task) : bool :=
  is_permission_request (awaited t).

(** [p] makes no further call. *)
Fixpoint finishing {A : Type} (p : async A) : Prop :=
  match p with
  | Ret _ => True
  | Throw _ => True
  | Do _ k => finishing k
  | Await _ _ => False
  end.

(** [p] awaits permission requests only and writes nothing before its
    last answer is in. *)
Fixpoint gate {A : Type} (p : async A) : Prop :=
  match p with
  | Ret _ => True
  | Throw _ => True
  | Do _ k => finishing k
  | Await c k => is_permission_request c = true /\ forall o, gate (k o)
  end.

(** [p] never writes the permission flag, never asks for a permission and
    never asks for a photo. *)
Fixpoint quiet {A : Type} (p : async A) : Prop :=
  match p with
  | Ret _ => True
  | Throw _ => True
  | Do e k => is_setHasPermissions e = false /\ quiet k
  | Await c k =>
      is_takePhoto c = false /\ is_permission_request c = false
      /\ forall o, quiet (k o)
  end.

(** The in-flight runs are the permission effect, at most once, and
    acquisition runs; a photo is being taken only with a device and the
    permission flag up, and the flag is down while the permission effect
    is waiting. *)
Definition guarded (device : option CameraDevice) (sys : system) : Prop :=
  Forall (fun t => if asks_permission t
                   then forall o, gate (resume t o)
                   else forall o, quiet (resume t o)) (inflight sys)
  /\ length (filter asks_permission (inflight sys)) <= 1
  /\ (existsb takes_photo (inflight sys) = true ->
      hasPermissions (ui sys) = true /\ device <> None)
  /\ (existsb asks_permission (inflight sys) = true ->
      hasPermissions (ui sys) = false).

(* ================================================================== *)
(** ** Basic facts *)

Lemma keys_empty_iff (m : obj) : Object_keys m = [] <-> m = [].
Proof.
  destruct m as [| [k v] m']; simpl; split; intro H; try reflexivity; discriminate H.
Qed.

Lemma validateCard_empty (w : env) (m : obj) (s : State) :
  Object_keys m = [] ->
  final w (validateCard m) s =
  mkState notFoundMessage (hasPermissions s) (isProcessingText s) false (contactInfo s).
Proof.
  intro H. unfold validateCard. rewrite H. reflexivity.
Qed.

Lemma validateCard_nonempty (w : env) (m : obj) (s : State) :
  Object_keys m <> [] ->
  final w (validateCard m) s =
  mkState (processedText s) (hasPermissions s) (isProcessingText s) true m.
Proof.
  intro H. unfold validateCard.
  destruct (Object_keys m) as [| k ks] eqn:E; [contradiction H; reflexivity |].
  reflexivity.
Qed.

(** [final] and [trace] go through [bind] and [try_catch] of a program
    that performs writes only. *)
Lemma final_validateCard (w : env) (m : obj) (s : State)
      (h : string -> async unit) :
  final w (try_catch (validateCard m) h) s = final w (validateCard m) s.
Proof.
  unfold validateCard.
  destruct (negb (Nat.eqb (length (Object_keys m)) 0)); reflexivity.
Qed.

Lemma trace_validateCard (w : env) (m : obj) (s : State)
      (h : string -> async unit) :
  trace w (try_catch (validateCard m) h) s = [].
Proof.
  unfold validateCard.
  destruct (negb (Nat.eqb (length (Object_keys m)) 0)); reflexivity.
Qed.

Lemma outcome_validateCard (w : env) (m : obj) (h : string -> async unit) :
  outcome w (try_catch (validateCard m) h) = Fulfilled tt.
Proof.
  unfold validateCard.
  destruct (negb (Nat.eqb (length (Object_keys m)) 0)); reflexivity.
Qed.

(** Follow a run through the answers of the world [w], one suspension
    point at a time; the validator at the end performs writes only. *)
Ltac follow w :=
  simpl;
  repeat match goal with
         | |- context [match w ?c with _ => _ end] =>
             destruct (w c) as [? | ?] eqn:?; simpl
         end;
  rewrite ?trace_validateCard, ?final_validateCard, ?outcome_validateCard;
  try reflexivity.

(* ================================================================== *)
(** ** Result validator *)

(** C4: [validateCard m] classifies Found (the found flag is set) exactly
    when [m] has at least one key, and then stores [m] itself, whatever its
    value sequences hold; with no key it classifies NotFound (found flag
    cleared) under the fixed message. *)
Theorem validateCard_found_iff_keys (w : env) (m : obj) (s : State) :
  let s' := final w (validateCard m) s in
  (cardIsFound s' = true <-> Object_keys m <> []) /\
  (Object_keys m <> [] -> contactInfo s' = m) /\
  (Object_keys m = [] ->
   cardIsFound s' = false /\
   processedText s' = "No valid Business Card found, please try again!!").
Proof.
  cbv zeta. destruct (Object_keys m) as [| k ks] eqn:E.
  - rewrite validateCard_empty by exact E. simpl.
    repeat split; intros; try discriminate; try congruence.
  - assert (N : Object_keys m <> []) by (rewrite E; discriminate).
    rewrite validateCard_nonempty by exact N. simpl.
    repeat split; intros; try discriminate; try congruence.
Qed.

(** C10: a NotFound classification writes the message and the found flag
    only, so the mapping stored by an earlier Found result stays in the
    state although the renderer no longer shows it; a Found classification
    writes the mapping and the found flag only, so the message stays. *)
Theorem validateCard_frame (w : env) (m : obj) (s : State) :
  let s' := final w (validateCard m) s in
  (Object_keys m = [] ->
   contactInfo s' = contactInfo s /\
   isProcessingText s' = isProcessingText s /\
   hasPermissions s' = hasPermissions s /\
   (isProcessingText s = false ->
    statusPart s' = Text (Some styles.errorText) notFoundMessage)) /\
  (Object_keys m <> [] ->
   processedText s' = processedText s /\
   isProcessingText s' = isProcessingText s /\
   hasPermissions s' = hasPermissions s).
Proof.
  cbv zeta. split; intro H.
  - rewrite validateCard_empty by exact H. simpl. repeat split.
    intro P. unfold statusPart. simpl. rewrite P. reflexivity.
  - rewrite validateCard_nonempty by exact H. simpl. repeat split.
Qed.

(* ================================================================== *)
(** ** Permission gate *)

Lemma hasPermissions_requestPermissions (w : env) (s : State)
      (cam mic : CameraPermissionRequestResult) :
  w requestCameraPermission = Fulfilled cam ->
  w requestMicrophonePermission = Fulfilled mic ->
  hasPermissions (final w requestPermissions s)
  = negb (is_denied cam || is_denied mic).
Proof.
  intros Hc Hm. unfold requestPermissions. simpl. rewrite Hc. simpl.
  rewrite Hm. simpl.
  destruct (is_denied cam || is_denied mic); reflexivity.
Qed.

(** C2 (as the code has it): the capture-usable flag is set exactly when
    neither request resolves to [denied]; both [granted] sets it, [denied]
    on either clears it, and [restricted] or [not-determined] next to no
    [denied] sets it as well. *)
Theorem permissions_usable_iff_none_denied (w : env) (s : State)
        (cam mic : CameraPermissionRequestResult) :
  w requestCameraPermission = Fulfilled cam ->
  w requestMicrophonePermission = Fulfilled mic ->
  (hasPermissions (final w requestPermissions s) = true
   <-> cam <> denied /\ mic <> denied).
Proof.
  intros Hc Hm. rewrite (hasPermissions_requestPermissions w s Hc Hm).
  destruct cam, mic; simpl; split; intro H;
    try reflexivity; try discriminate H;
    try (split; discriminate);
    destruct H as [H1 H2]; try (contradiction H1; reflexivity);
    contradiction H2; reflexivity.
Qed.

Lemma permissions_usable_iff_none_denied_witness :
  hasPermissions (final (answering granted granted) requestPermissions initialState)
  = true <-> granted <> denied /\ granted <> denied.
Proof.
  apply (@permissions_usable_iff_none_denied
           (answering granted granted) initialState granted granted);
    reflexivity.
Defined.

(** C2 fails as stated: with the camera request resolving to [restricted]
    and the microphone request to [granted], the flag is set although the
    two statuses are not both [granted]. *)
Lemma restricted_counts_as_usable :
  hasPermissions
    (final (answering restricted granted) requestPermissions initialState) = true
  /\ ~ (restricted = granted /\ granted = granted).
Proof.
  split; [reflexivity | intros [H _]; discriminate H].
Qed.

(* ================================================================== *)
(** ** Live capture: the locator handed to the interpreter *)

Lemma imagePath_ios (image : option PhotoFile) :
  imagePath "ios" image = image_path image.
Proof. reflexivity. Qed.

Lemma imagePath_other (os : PlatformOS) (image : option PhotoFile) :
  os <> "ios" ->
  imagePath os image = Some ("file://" ++ to_template (image_path image)).
Proof.
  intro H. unfold imagePath.
  destruct (String.eqb os "ios") eqn:E; [| reflexivity].
  apply String.eqb_eq in E. contradiction.
Qed.

Lemma calls_capture_with_camera (w : env) (os : PlatformOS) (s : State)
      (img : PhotoFile) :
  w (takePhoto photoOptions) = Fulfilled img ->
  calls w (captureAndRecognize os true) s
  = [takePhoto photoOptions;
     interpretImage (spread_with_path (Some img) (imagePath os (Some img)))].
Proof.
  intro H. unfold calls, captureAndRecognize. simpl. rewrite H. follow w.
Qed.

(** C7: a live-captured image reaches the interpreter under a locator
    fixed by the host alone: the one call to the interpreter carries, as
    its path, the raw path as it is on [ios] and the raw path behind the
    [file://] prefix on every other host, next to the photo's own width
    and height. The hosts so fall into two families, [ios] and the rest,
    and exactly one of them (the rest) gets the prefix. *)
Theorem capture_locator_host_keyed (w : env) (os : PlatformOS) (s : State)
        (img : PhotoFile) :
  w (takePhoto photoOptions) = Fulfilled img ->
  (exists image,
      calls w (captureAndRecognize os true) s
      = [takePhoto photoOptions; interpretImage image]
      /\ (os = "ios" -> path image = Some (pf_path img))
      /\ (os <> "ios" -> path image = Some ("file://" ++ pf_path img))
      /\ width image = Some (pf_width img)
      /\ height image = Some (pf_height img))
  /\ calls w (captureAndRecognize os true) s
     = [takePhoto photoOptions;
        interpretImage
          (mkCapturedImage
             (Some (if String.eqb os "ios" then pf_path img
                    else "file://" ++ pf_path img))
             (Some (pf_width img)) (Some (pf_height img)) None)]
  /\ (exists! family : bool,
        forall (os' : PlatformOS) (img' : PhotoFile),
          String.eqb os' "ios" = family ->
          imagePath os' (Some img') = Some ("file://" ++ pf_path img')).
Proof.
  intro H. rewrite (calls_capture_with_camera w os s H).
  unfold spread_with_path.
  split.
  { eexists. split; [reflexivity |]. cbn [path width height].
    split; [intro E; subst os; reflexivity |].
    split; [intro N; rewrite imagePath_other by exact N; reflexivity |].
    split; reflexivity. }
  split.
  { unfold imagePath. simpl. destruct (String.eqb os "ios"); reflexivity. }
  exists false. split.
  - intros os' img' E. unfold imagePath. rewrite E. reflexivity.
  - intros [|] F; [| reflexivity].
    specialize (F "ios" samplePhoto eq_refl). discriminate F.
Qed.

Lemma capture_locator_host_keyed_witness :
  calls (serving (Rejected "offline")) (captureAndRecognize "android" true)
        initialState
  = [takePhoto photoOptions;
     interpretImage
       (mkCapturedImage (Some "file:///data/cache/photo.jpg")
                        (Some 1920) (Some 1080) None)].
Proof.
  exact (proj1 (proj2 (@capture_locator_host_keyed
                         (serving (Rejected "offline"))
                         "android" initialState samplePhoto eq_refl))).
Defined.

Lemma calls_capture_without_camera (w : env) (os : PlatformOS) (s : State) :
  calls w (captureAndRecognize os false) s
  = [interpretImage (spread_with_path None (imagePath os None))].
Proof.
  unfold calls, captureAndRecognize. follow w.
Qed.

(** C9: with the camera reference unset no photo is taken, yet the handler
    goes on and calls the interpreter, with a locator that is [undefined]
    on iOS and the string [file://undefined] on every other host: not the
    path of any image. *)
Theorem capture_without_camera_still_interprets (w : env) (os : PlatformOS)
        (s : State) :
  calls w (captureAndRecognize os false) s
  = [interpretImage (mkCapturedImage (imagePath os None) None None None)]
  /\ suspension (captureAndRecognize os false) s
     = Some (interpretImage (mkCapturedImage (imagePath os None) None None None),
             busy s)
  /\ (os = "ios" -> imagePath os None = None)
  /\ (os <> "ios" -> imagePath os None = Some "file://undefined").
Proof.
  split; [| split; [reflexivity | split; [intro E; subst os; reflexivity |]]].
  - apply calls_capture_without_camera.
  - intro N. rewrite imagePath_other by exact N. reflexivity.
Qed.

(* ================================================================== *)
(** ** The busy flag around the suspension points *)

Lemma suspension_capture (os : PlatformOS) (camera : bool) (s : State) :
  suspension (captureAndRecognize os camera) s
  = Some (if camera then takePhoto photoOptions
          else interpretImage (spread_with_path None (imagePath os None)),
          busy s).
Proof. destruct camera; reflexivity. Qed.

Lemma trace_capture_busy (w : env) (os : PlatformOS) (camera : bool) (s : State) :
  Forall (fun ob => observed ob = busy s)
         (trace w (captureAndRecognize os camera) s).
Proof.
  unfold captureAndRecognize. destruct camera; follow w;
    repeat (constructor; try reflexivity).
Qed.

Lemma trace_pick (w : env) (s : State) :
  trace w pickAndRecognize s
  = mkObservation (openPicker (mkPickerOptions false)) s
                  (is_rejected (w (openPicker (mkPickerOptions false))))
    :: match w (openPicker (mkPickerOptions false)) with
       | Fulfilled res =>
           [mkObservation (interpretImage (ofImageOrVideo res)) (busy s)
              (is_rejected (w (interpretImage (ofImageOrVideo res))))]
       | Rejected _ => []
       end.
Proof.
  unfold pickAndRecognize, then_catch. follow w.
Qed.

(** C1 (as the code has it): a live-capture trigger raises the busy flag
    at once, before [takePhoto] is called, whatever the state was. The run
    then writes nothing until the interpreter has answered: resumed with a
    photo in any state, it goes on to the interpreter with that state as
    it is. So in a run taken alone, which is what [trace] follows, the
    flag is up at every suspension point; a run that overlaps it may write
    the shared flag in between. A pick trigger leaves the state as it was
    while the picker is open; resumed with an image in any state, the run
    raises the flag and only then calls the interpreter. *)
Theorem busy_flag_before_async_work (w : env) (os : PlatformOS)
        (camera : bool) (s : State) :
  (exists c, suspension (captureAndRecognize os camera) s = Some (c, busy s))
  /\ isProcessingText (busy s) = true
  /\ (exists k,
        run_sync (captureAndRecognize os true) s
        = (busy s, Waiting (takePhoto photoOptions) k)
        /\ forall (img : PhotoFile) (s' : State),
            suspension (k (Fulfilled img)) s'
            = Some (interpretImage
                      (spread_with_path (Some img) (imagePath os (Some img))),
                    s'))
  /\ Forall (fun ob => isProcessingText (observed ob) = true)
            (trace w (captureAndRecognize os camera) s)
  /\ (exists k,
        run_sync pickAndRecognize s
        = (s, Waiting (openPicker (mkPickerOptions false)) k)
        /\ forall (res : ImageOrVideo) (s' : State),
            suspension (k (Fulfilled res)) s'
            = Some (interpretImage (ofImageOrVideo res), busy s'))
  /\ (forall res : ImageOrVideo,
        w (openPicker (mkPickerOptions false)) = Fulfilled res ->
        trace w pickAndRecognize s
        = [mkObservation (openPicker (mkPickerOptions false)) s false;
           mkObservation (interpretImage (ofImageOrVideo res)) (busy s)
             (is_rejected (w (interpretImage (ofImageOrVideo res))))]).
Proof.
  split; [eexists; apply suspension_capture |].
  split; [reflexivity |].
  split.
  { unfold captureAndRecognize. simpl. eexists. split; [reflexivity |].
    intros img s'. reflexivity. }
  split.
  { eapply Forall_impl; [| apply trace_capture_busy].
    intros ob E. rewrite E. reflexivity. }
  split.
  { unfold pickAndRecognize, then_catch. simpl. eexists.
    split; [reflexivity |]. intros res s'. reflexivity. }
  intros res E. rewrite trace_pick, E. reflexivity.
Qed.

(** C1 fails as stated: after a pick trigger from the initial state the
    handler is suspended on the picker with the state untouched, so the
    busy flag is down and the message text is on display, not the busy
    indicator. *)
Lemma pick_trigger_leaves_state_untouched :
  suspension pickAndRecognize initialState
  = Some (openPicker (mkPickerOptions false), initialState)
  /\ isProcessingText initialState = false
  /\ statusPart initialState
     = Text (Some styles.errorText) (processedText initialState).
Proof. repeat split. Qed.

(* ================================================================== *)
(** ** Failures *)

Lemma final_pick (w : env) (s : State) :
  final w pickAndRecognize s
  = match w (openPicker (mkPickerOptions false)) with
    | Fulfilled res =>
        match w (interpretImage (ofImageOrVideo res)) with
        | Fulfilled r => final w (validateCard (data_or_empty r)) (idle s)
        | Rejected _ => idle s
        end
    | Rejected _ => idle s
    end.
Proof.
  unfold pickAndRecognize, then_catch. follow w.
Qed.

Lemma final_capture (w : env) (os : PlatformOS) (camera : bool) (s : State) :
  final w (captureAndRecognize os camera) s
  = match photo_of w camera with
    | Fulfilled image =>
        match w (interpretImage (spread_with_path image (imagePath os image))) with
        | Fulfilled r => final w (validateCard (data_or_empty r)) (idle s)
        | Rejected _ => idle s
        end
    | Rejected _ => idle s
    end.
Proof.
  unfold captureAndRecognize, photo_of. destruct camera; follow w.
Qed.

Lemma some_failure_pick (w : env) (s : State) :
  some_failure w pickAndRecognize s
  = match w (openPicker (mkPickerOptions false)) with
    | Fulfilled res => is_rejected (w (interpretImage (ofImageOrVideo res)))
    | Rejected _ => true
    end.
Proof.
  unfold some_failure. rewrite trace_pick.
  destruct (w (openPicker (mkPickerOptions false))) as [res | err]; simpl.
  - rewrite orb_false_r. reflexivity.
  - reflexivity.
Qed.

Lemma some_failure_capture (w : env) (os : PlatformOS) (camera : bool)
      (s : State) :
  some_failure w (captureAndRecognize os camera) s
  = match photo_of w camera with
    | Fulfilled image =>
        is_rejected (w (interpretImage (spread_with_path image (imagePath os image))))
    | Rejected _ => true
    end.
Proof.
  unfold some_failure, captureAndRecognize, photo_of. destruct camera; follow w.
Qed.

Lemma outcome_pick (w : env) : outcome w pickAndRecognize = Fulfilled tt.
Proof.
  unfold pickAndRecognize, then_catch. follow w.
Qed.

Lemma outcome_capture (w : env) (os : PlatformOS) (camera : bool) :
  outcome w (captureAndRecognize os camera) = Fulfilled tt.
Proof.
  unfold captureAndRecognize. destruct camera; follow w.
Qed.

Lemma data_or_empty_absent (r : option Response) :
  payload r = None -> data_or_empty r = [].
Proof. intro H. unfold data_or_empty. rewrite H. reflexivity. Qed.

(** C5: whenever a suspension point of an acquisition run fails (the
    picker, the camera or the interpreter), the run ends with the busy flag
    cleared and every other cell of the state as it was at the trigger: the
    found flag and the message are not touched, so a failure never shows as
    NotFound; the handler itself does not fail. *)
Theorem failure_only_clears_busy (w : env) (os : PlatformOS) (camera : bool)
        (s : State) (p : async unit) :
  p = pickAndRecognize \/ p = captureAndRecognize os camera ->
  some_failure w p s = true ->
  let s' := final w p s in
  s' = idle s
  /\ isProcessingText s' = false
  /\ processedText s' = processedText s
  /\ cardIsFound s' = cardIsFound s
  /\ contactInfo s' = contactInfo s
  /\ outcome w p = Fulfilled tt.
Proof.
  intros Hp Hf. cbv zeta.
  assert (E : final w p s = idle s).
  { destruct Hp as [-> | ->].
    - rewrite some_failure_pick in Hf. rewrite final_pick.
      destruct (w (openPicker (mkPickerOptions false))) as [res | err];
        [| reflexivity].
      destruct (w (interpretImage (ofImageOrVideo res))) as [r | err];
        [discriminate Hf | reflexivity].
    - rewrite some_failure_capture in Hf. rewrite final_capture.
      destruct (photo_of w camera) as [image | err]; [| reflexivity].
      destruct (w (interpretImage _)) as [r | err];
        [discriminate Hf | reflexivity]. }
  rewrite E. repeat split.
  destruct Hp as [-> | ->]; [apply outcome_pick | apply outcome_capture].
Qed.

Lemma failure_only_clears_busy_witness :
  some_failure (serving (Rejected "offline")) pickAndRecognize initialState = true
  /\ final (serving (Rejected "offline")) pickAndRecognize initialState
     = idle initialState.
Proof.
  split; [reflexivity |].
  exact (proj1 (@failure_only_clears_busy (serving (Rejected "offline"))
                  "android" true initialState pickAndRecognize
                  (or_introl eq_refl) eq_refl)).
Defined.

(** C6: when acquisition succeeds and the interpreter answers without a
    data payload, the run treats the answer as the empty mapping: it ends
    with the busy flag cleared, the found flag cleared and the fixed
    NotFound message on display; the stored mapping is still a mapping and
    the handler does not fail. *)
Theorem absent_payload_reaches_not_found (w : env) (os : PlatformOS)
        (camera : bool) (s : State) (p : async unit) :
  p = pickAndRecognize \/ p = captureAndRecognize os camera ->
  some_failure w p s = false ->
  (forall image r, w (interpretImage image) = Fulfilled r -> payload r = None) ->
  let s' := final w p s in
  isProcessingText s' = false
  /\ cardIsFound s' = false
  /\ processedText s' = notFoundMessage
  /\ contactInfo s' = contactInfo s
  /\ statusPart s' = Text (Some styles.errorText) notFoundMessage
  /\ outcome w p = Fulfilled tt
  /\ (exists image, In (interpretImage image) (calls w p s)).
Proof.
  intros Hp Hf Habs. cbv zeta.
  assert (E : final w p s
              = mkState notFoundMessage (hasPermissions s) false false
                        (contactInfo s)
              /\ exists image, In (interpretImage image) (calls w p s)).
  { destruct Hp as [-> | ->].
    - rewrite some_failure_pick in Hf. rewrite final_pick.
      unfold calls. rewrite trace_pick.
      destruct (w (openPicker (mkPickerOptions false))) as [res | err];
        [| discriminate Hf].
      destruct (w (interpretImage (ofImageOrVideo res))) as [r | err] eqn:Er;
        [| discriminate Hf].
      split.
      + rewrite validateCard_empty; [reflexivity |].
        rewrite (data_or_empty_absent _ (Habs _ _ Er)). reflexivity.
      + exists (ofImageOrVideo res). simpl. right. left. reflexivity.
    - rewrite some_failure_capture in Hf. rewrite final_capture.
      assert (C : forall image, photo_of w camera = Fulfilled image ->
                In (interpretImage (spread_with_path image (imagePath os image)))
                   (calls w (captureAndRecognize os camera) s)).
      { intros image Ei. unfold photo_of in Ei. destruct camera.
        - destruct (w (takePhoto photoOptions)) as [img | err] eqn:Et;
            [| discriminate Ei].
          injection Ei as <-.
          rewrite (calls_capture_with_camera w os s Et). right. left. reflexivity.
        - injection Ei as <-.
          rewrite (calls_capture_without_camera w os s).
          left. reflexivity. }
      destruct (photo_of w camera) as [image | err]; [| discriminate Hf].
      specialize (C image eq_refl).
      destruct (w (interpretImage _)) as [r | err] eqn:Er; [| discriminate Hf].
      split.
      + rewrite validateCard_empty; [reflexivity |].
        rewrite (data_or_empty_absent _ (Habs _ _ Er)). reflexivity.
      + eexists. exact C. }
  destruct E as [E C]. rewrite E. repeat split; [| exact C].
  destruct Hp as [-> | ->]; [apply outcome_pick | apply outcome_capture].
Qed.

Lemma absent_payload_reaches_not_found_witness :
  processedText
    (final (serving (Fulfilled (Some (mkResponse None))))
           (captureAndRecognize "android" true) initialState)
  = "No valid Business Card found, please try again!!".
Proof.
  refine (proj1 (proj2 (proj2
    (@absent_payload_reaches_not_found
       (serving (Fulfilled (Some (mkResponse None))))
       "android" true initialState
       (captureAndRecognize "android" true)
       (or_intror eq_refl) eq_refl _)))).
  intros image r E. injection E as <-. reflexivity.
Defined.

(* ================================================================== *)
(** ** Renderer *)

(** C3 (as the code has it): with no rear device, and likewise with a
    device but unusable permissions, the capture view is replaced by the
    text "No Camera Found"; the tree is the same in the two cases, and the
    gallery button stays in it. *)
Theorem no_camera_found_text (device : option CameraDevice) (s : State) :
  device = None \/ hasPermissions s = false ->
  cameraPart device s = Text None "No Camera Found"
  /\ App device s
     = SafeAreaView styles.container
         [StatusBar;
          Text (Some styles.title) "Business Card Scanner";
          Pressable styles.galleryBtn onPickAndRecognize
            [Text (Some styles.btnText) "Pick from Gallery"];
          Text None "No Camera Found";
          statusPart s].
Proof.
  intro H.
  assert (E : cameraPart device s = Text None "No Camera Found").
  { unfold cameraPart. destruct H as [-> | H]; [reflexivity |].
    rewrite H. destruct device; reflexivity. }
  split; [exact E |]. unfold App. rewrite E. reflexivity.
Qed.

Lemma no_camera_found_text_witness :
  cameraPart None (apply_effect (setHasPermissions true) initialState)
  = Text None "No Camera Found".
Proof.
  exact (proj1 (@no_camera_found_text None
                  (apply_effect (setHasPermissions true) initialState)
                  (or_introl eq_refl))).
Defined.

(** C3 fails as stated: the tree rendered with no rear device and usable
    permissions is the very tree rendered with a rear device and denied
    permissions. *)
Lemma no_device_renders_like_denied :
  hasPermissions (apply_effect (setHasPermissions true) initialState) = true
  /\ hasPermissions (apply_effect (setHasPermissions false) initialState) = false
  /\ App None (apply_effect (setHasPermissions true) initialState)
     = App (Some "back") (apply_effect (setHasPermissions false) initialState).
Proof. repeat split. Qed.

Lemma list_sum_cons (n : nat) (l : list nat) :
  list_sum (n :: l) = n + list_sum l.
Proof. reflexivity. Qed.

Section NoStatusInside.
(** A kind of node that no row of the contact list and no part of the
    camera area belongs to. *)
Variable P : element -> bool.
Hypothesis P_text_plain : forall t, P (Text None t) = false.
Hypothesis P_key : forall t, P (Text (Some styles.contactRowKey) t) = false.
Hypothesis P_value : forall t, P (Text (Some styles.contactRowValue) t) = false.
Hypothesis P_title : forall t, P (Text (Some styles.title) t) = false.
Hypothesis P_btnText : forall t, P (Text (Some styles.btnText) t) = false.
Hypothesis P_view : forall st cs, P (View st cs) = false.
Hypothesis P_pressable : forall st h cs, P (Pressable st h cs) = false.
Hypothesis P_camera : forall st d, P (CameraView st d) = false.
Hypothesis P_image : P Image = false.
Hypothesis P_statusBar : P StatusBar = false.
Hypothesis P_root : forall st cs, P (SafeAreaView st cs) = false.

Lemma count_valueTexts (rows : list string) :
  list_sum (map (count P) (map valueText rows)) = 0.
Proof.
  induction rows as [| r rows IH]; [reflexivity |].
  cbn [map]. rewrite list_sum_cons, IH. unfold valueText. cbn [count].
  rewrite P_value. reflexivity.
Qed.

Lemma count_contactRowOf (o : obj) (key : string) :
  count P (contactRowOf o key) = 0.
Proof.
  unfold contactRowOf. cbn [count]. rewrite P_view.
  cbn [map]. rewrite list_sum_cons. cbn [count]. rewrite P_key.
  destruct (get o key) as [[| r rows] |].
  - apply (count_valueTexts ["Undefined"]).
  - apply (count_valueTexts (r :: rows)).
  - apply (count_valueTexts ["Undefined"]).
Qed.

Lemma count_contactRows (o : obj) (keys : list string) :
  list_sum (map (count P) (map (contactRowOf o) keys)) = 0.
Proof.
  induction keys as [| k keys IH]; [reflexivity |].
  cbn [map]. rewrite list_sum_cons, count_contactRowOf, IH. reflexivity.
Qed.

Lemma count_cameraPart (device : option CameraDevice) (s : State) :
  count P (cameraPart device s) = 0.
Proof.
  unfold cameraPart.
  destruct device as [d |]; [destruct (hasPermissions s) |]; cbn [count].
  - rewrite P_view. cbn [map list_sum count].
    rewrite P_camera, P_pressable, P_image. reflexivity.
  - rewrite P_text_plain. reflexivity.
  - rewrite P_text_plain. reflexivity.
Qed.

Lemma count_App (device : option CameraDevice) (s : State) :
  count P (App device s) = count P (statusPart s).
Proof.
  unfold App. cbn [count map list_sum].
  rewrite P_root, P_statusBar, P_title, P_pressable, P_btnText.
  rewrite count_cameraPart. cbn. lia.
Qed.
End NoStatusInside.

Lemma get_field (o : obj) (key : string) (values : list string) :
  wf_obj o -> In (key, values) o -> get o key = Some values.
Proof.
  unfold wf_obj, Object_keys.
  induction o as [| [k v] o IH]; intros W H; [contradiction H |].
  simpl in W. inversion W as [| ? ? Hnotin Hnodup]; subst.
  destruct H as [H | H].
  - injection H as -> ->. simpl. rewrite String.eqb_refl. reflexivity.
  - simpl. destruct (String.eqb k key) eqn:E.
    + apply String.eqb_eq in E. subst k. exfalso. apply Hnotin.
      change key with (fst (key, values)). apply in_map. exact H.
    + apply IH; assumption.
Qed.

Lemma contactRows_fields (o : obj) :
  wf_obj o -> map (contactRowOf o) (Object_keys o) = map fieldRow o.
Proof.
  intro W. unfold Object_keys. rewrite map_map. apply map_ext_in.
  intros [key values] H. unfold contactRowOf, fieldRow. simpl fst. simpl snd.
  rewrite (@get_field o key values W H). destruct values; reflexivity.
Qed.

Lemma count_statuses (s : State) :
  count isBusyIndicator (statusPart s)
  = (if isProcessingText s then 1 else 0)
  /\ count isFieldList (statusPart s)
     = (if isProcessingText s then 0 else if cardIsFound s then 1 else 0)
  /\ count isMessageText (statusPart s)
     = (if isProcessingText s then 0 else if cardIsFound s then 0 else 1).
Proof.
  unfold statusPart.
  destruct (isProcessingText s); [repeat split |].
  destruct (cardIsFound s); [| repeat split].
  cbn [count isBusyIndicator isFieldList isMessageText].
  rewrite !count_contactRows by reflexivity. repeat split.
Qed.

Lemma texts_values (st : option styles.t) (values : list string) :
  concat (map texts (map (fun value => Text st value) values)) = values.
Proof.
  induction values as [| v values IH]; [reflexivity |].
  simpl. rewrite IH. reflexivity.
Qed.

Lemma texts_fieldRows (o : obj) :
  concat (map texts (map fieldRow o)) = flat_map fieldTexts o.
Proof.
  induction o as [| field o IH]; [reflexivity |].
  cbn [map concat flat_map]. rewrite IH. f_equal.
  unfold fieldRow, fieldTexts. cbn [texts map concat].
  rewrite texts_values. reflexivity.
Qed.

(** C8: the tree holds exactly one of the busy indicator, the contact
    field list and the message text: the indicator while processing, else
    the list when a card was found, else the message. In the list every
    field of the mapping gives one row, in order, holding its key and then
    its values in order, each as it is, or the text "Undefined" when it
    has no value; these strings are all the list shows. *)
Theorem renderer_shows_exactly_one (device : option CameraDevice) (s : State) :
  wf_obj (contactInfo s) ->
  let r := App device s in
  count isBusyIndicator r + count isFieldList r + count isMessageText r = 1
  /\ In (statusPart s) (children_of r)
  /\ (isProcessingText s = true ->
      statusPart s = ActivityIndicator styles.activityIndicator
      /\ count isBusyIndicator r = 1)
  /\ (isProcessingText s = false -> cardIsFound s = true ->
      statusPart s = ScrollView styles.infoWrapper (map fieldRow (contactInfo s))
      /\ texts (statusPart s) = flat_map fieldTexts (contactInfo s)
      /\ count isFieldList r = 1)
  /\ (isProcessingText s = false -> cardIsFound s = false ->
      statusPart s = Text (Some styles.errorText) (processedText s)
      /\ texts (statusPart s) = [processedText s]
      /\ count isMessageText r = 1).
Proof.
  intro W. cbv zeta.
  rewrite !count_App by reflexivity.
  destruct (count_statuses s) as (B & F & M). rewrite B, F, M.
  split; [destruct (isProcessingText s), (cardIsFound s); reflexivity |].
  split; [simpl; tauto |].
  unfold statusPart. rewrite (contactRows_fields W).
  split; [intros ->; split; reflexivity |].
  split.
  - intros -> ->. split; [reflexivity |]. split; [| reflexivity].
    cbn [texts]. apply texts_fieldRows.
  - intros -> ->. repeat split.
Qed.

Lemma renderer_shows_exactly_one_witness :
  wf_obj (contactInfo foundB)
  /\ texts (statusPart foundB) = ["email:"; "a@x.com"; "phone:"; "Undefined"].
Proof.
  assert (W : wf_obj (contactInfo foundB)).
  { unfold wf_obj. simpl. constructor.
    - simpl. intros [H | []]. discriminate H.
    - constructor; [intros [] | constructor]. }
  split; [exact W |].
  destruct (@renderer_shows_exactly_one None foundB W) as (_ & _ & _ & H & _).
  rewrite (proj1 (H eq_refl eq_refl)). reflexivity.
Defined.

(* ================================================================== *)
(** ** Whole runs of the acquisition handlers *)

(** Follow a run to its end, through every answer of the world and both
    branches of the validator. *)
Ltac settle_run w :=
  simpl;
  repeat match goal with
         | |- context [match w ?c with _ => _ end] =>
             destruct (w c) as [? | ?] eqn:?; simpl
         end;
  unfold validateCard;
  repeat match goal with
         | |- context [if negb (Nat.eqb ?n 0) then _ else _] =>
             destruct (negb (Nat.eqb n 0)); simpl
         end.

(** The final state is the trigger state with the performed writes
    applied in order. *)
Lemma final_performed {A : Type} (w : env) (p : async A) (s : State) :
  final w p s = fold_left (fun st e => apply_effect e st) (performed w p) s.
Proof.
  revert s. induction p as [a | err | e k IH | c k IH]; intro s; simpl.
  - reflexivity.
  - reflexivity.
  - apply IH.
  - apply IH.
Qed.

(** X1: whatever the picker, the camera and the interpreter answer, a run
    of either handler ends with the busy flag down and the permission flag
    as it was, and the handler's own promise is fulfilled. *)
Theorem run_ends_idle (w : env) (os : PlatformOS) (camera : bool)
        (s : State) (p : async unit) :
  p = pickAndRecognize \/ p = captureAndRecognize os camera ->
  isProcessingText (final w p s) = false
  /\ hasPermissions (final w p s) = hasPermissions s
  /\ outcome w p = Fulfilled tt.
Proof.
  intros [-> | ->].
  - unfold pickAndRecognize, then_catch. settle_run w; repeat split.
  - unfold captureAndRecognize. destruct camera; settle_run w; repeat split.
Qed.

Lemma run_ends_idle_witness :
  isProcessingText
    (final (serving (Fulfilled (Some (mkResponse (Some scenarioB)))))
           pickAndRecognize initialState) = false.
Proof.
  exact (proj1 (@run_ends_idle
                  (serving (Fulfilled (Some (mkResponse (Some scenarioB)))))
                  "android" true initialState pickAndRecognize
                  (or_introl eq_refl))).
Defined.

(** X2: when acquisition and interpretation succeed and the payload [d]
    has a key, the run ends with [d] itself stored in place of whatever
    mapping was there, the found flag up, the busy flag down and the
    message as it was. *)
Theorem payload_with_keys_replaces_mapping (w : env) (os : PlatformOS)
        (camera : bool) (s : State) (p : async unit) (d : obj) :
  p = pickAndRecognize \/ p = captureAndRecognize os camera ->
  some_failure w p s = false ->
  (forall image r, w (interpretImage image) = Fulfilled r -> payload r = Some d) ->
  Object_keys d <> [] ->
  final w p s = mkState (processedText s) (hasPermissions s) false true d.
Proof.
  intros Hp Hf Hd Hk.
  assert (V : forall r image, w (interpretImage image) = Fulfilled r ->
              final w (validateCard (data_or_empty r)) (idle s)
              = mkState (processedText s) (hasPermissions s) false true d).
  { intros r image E. unfold data_or_empty. rewrite (Hd _ _ E).
    rewrite validateCard_nonempty by exact Hk. reflexivity. }
  destruct Hp as [-> | ->].
  - rewrite some_failure_pick in Hf. rewrite final_pick.
    destruct (w (openPicker (mkPickerOptions false))) as [res | err];
      [| discriminate Hf].
    destruct (w (interpretImage (ofImageOrVideo res))) as [r | err] eqn:E;
      [| discriminate Hf].
    exact (V _ _ E).
  - rewrite some_failure_capture in Hf. rewrite final_capture.
    destruct (photo_of w camera) as [image | err]; [| discriminate Hf].
    destruct (w (interpretImage _)) as [r | err] eqn:E; [| discriminate Hf].
    exact (V _ _ E).
Qed.

Lemma payload_with_keys_replaces_mapping_witness :
  final (serving (Fulfilled (Some (mkResponse (Some scenarioB)))))
        (captureAndRecognize "ios" true)
        (mkState notFoundMessage true false true [("name", ["Old Card"])])
  = mkState notFoundMessage true false true scenarioB.
Proof.
  refine (@payload_with_keys_replaces_mapping
            (serving (Fulfilled (Some (mkResponse (Some scenarioB)))))
            "ios" true _ (captureAndRecognize "ios" true) scenarioB
            (or_intror eq_refl) eq_refl _ _).
  - intros image r E. injection E as <-. reflexivity.
  - discriminate.
Defined.

(** X3: when the acquisition call is rejected (the picker is cancelled,
    the camera fails), the run makes no other call: the interpreter is
    never called. *)
Theorem failed_acquisition_skips_interpretation (w : env) (os : PlatformOS)
        (s : State) (p : async unit) (err : string) :
  (p = pickAndRecognize
   /\ w (openPicker (mkPickerOptions false)) = Rejected err)
  \/ (p = captureAndRecognize os true
      /\ w (takePhoto photoOptions) = Rejected err) ->
  existsb is_interpretImage (calls w p s) = false
  /\ length (calls w p s) = 1
  /\ rejections w p = [err].
Proof.
  intros [[-> E] | [-> E]].
  - unfold calls, pickAndRecognize, then_catch. simpl. rewrite E. simpl.
    repeat split.
  - unfold calls, captureAndRecognize. simpl. rewrite E. simpl.
    repeat split.
Qed.

Lemma failed_acquisition_skips_interpretation_witness :
  existsb is_interpretImage
          (calls (answering granted granted) pickAndRecognize initialState)
  = false.
Proof.
  exact (proj1 (@failed_acquisition_skips_interpretation
                  (answering granted granted) "android" initialState
                  pickAndRecognize "cancelled"
                  (or_introl (conj eq_refl eq_refl)))).
Defined.

(** X4: a run of either handler makes at most two calls and stops at its
    first rejection; the interpreter is called at most once, and when
    nothing is rejected it is the last call of the run. *)
Theorem one_interpretation_per_run (w : env) (os : PlatformOS) (camera : bool)
        (s : State) (p : async unit) :
  p = pickAndRecognize \/ p = captureAndRecognize os camera ->
  length (calls w p s) <= 2
  /\ length (filter is_interpretImage (calls w p s)) <= 1
  /\ length (rejections w p) <= 1
  /\ (some_failure w p s = false ->
      exists image,
        last (calls w p s) requestCameraPermission = interpretImage image).
Proof.
  intros [-> | ->].
  - unfold calls, some_failure, pickAndRecognize, then_catch.
    settle_run w; repeat split; try lia; try discriminate;
      intros _; eexists; reflexivity.
  - unfold calls, some_failure, captureAndRecognize.
    destruct camera; settle_run w; repeat split; try lia; try discriminate;
      intros _; eexists; reflexivity.
Qed.

Lemma one_interpretation_per_run_witness :
  length (filter is_interpretImage
            (calls (serving (Rejected "offline"))
                   (captureAndRecognize "android" true) initialState)) <= 1.
Proof.
  exact (proj1 (proj2 (@one_interpretation_per_run
                         (serving (Rejected "offline")) "android" true
                         initialState (captureAndRecognize "android" true)
                         (or_intror eq_refl)))).
Defined.

(** X5: a run logs to the console once for each rejected call, with the
    label "err:" and the reason of the rejection, and logs nothing else:
    a run without a failure logs nothing. *)
Theorem console_logs_are_the_rejections (w : env) (os : PlatformOS)
        (camera : bool) (p : async unit) :
  p = pickAndRecognize \/ p = captureAndRecognize os camera ->
  filter is_consoleLog (performed w p)
  = map (consoleLog "err:") (rejections w p).
Proof.
  intros [-> | ->].
  - unfold pickAndRecognize, then_catch. settle_run w; reflexivity.
  - unfold captureAndRecognize. destruct camera; settle_run w; reflexivity.
Qed.

Lemma console_logs_are_the_rejections_witness :
  filter is_consoleLog
         (performed (serving (Rejected "offline")) pickAndRecognize)
  = [consoleLog "err:" "offline"].
Proof.
  exact (@console_logs_are_the_rejections
           (serving (Rejected "offline")) "android" true pickAndRecognize
           (or_introl eq_refl)).
Defined.

(** X6: the acquisition handlers never raise an alert and never write the
    permission flag; the permission effect never writes a cell of the
    pipeline (message, busy flag, found flag, mapping) and never logs. *)
Theorem effects_are_separated (w : env) (os : PlatformOS) (camera : bool) :
  forallb (fun e => negb (is_alert e || is_setHasPermissions e))
          (performed w pickAndRecognize) = true
  /\ forallb (fun e => negb (is_alert e || is_setHasPermissions e))
             (performed w (captureAndRecognize os camera)) = true
  /\ forallb (fun e => negb (writes_pipeline e || is_consoleLog e))
             (performed w requestPermissions) = true.
Proof.
  split; [| split].
  - unfold pickAndRecognize, then_catch. settle_run w; reflexivity.
  - unfold captureAndRecognize. destruct camera; settle_run w; reflexivity.
  - unfold requestPermissions. settle_run w;
      repeat match goal with
             | |- context [if ?b then _ else _] => destruct b; simpl
             end; reflexivity.
Qed.

(* ================================================================== *)
(** ** Whole runs of the permission effect *)

(** X7: when both requests resolve, the effect asks for the camera first
    and for the microphone second, writes the permission flag exactly
    once, and raises the "Allow Permissions" alert, once, exactly when one
    of the two statuses is [denied]. *)
Theorem alert_iff_denied (w : env) (s : State)
        (cam mic : CameraPermissionRequestResult) :
  w requestCameraPermission = Fulfilled cam ->
  w requestMicrophonePermission = Fulfilled mic ->
  calls w requestPermissions s
  = [requestCameraPermission; requestMicrophonePermission]
  /\ length (filter is_setHasPermissions (performed w requestPermissions)) = 1
  /\ filter is_alert (performed w requestPermissions)
     = (if is_denied cam || is_denied mic
        then [alert "Allow Permissions"
                "Please allow camera and microphone permission to access camera features"
                ["Go to Settings"; "Cancel"]]
        else [])
  /\ outcome w requestPermissions = Fulfilled tt.
Proof.
  intros Hc Hm. unfold calls, requestPermissions. simpl.
  rewrite Hc. simpl. rewrite Hm. simpl.
  destruct (is_denied cam || is_denied mic); simpl; repeat split.
Qed.

Lemma alert_iff_denied_witness :
  filter is_alert (performed (answering granted denied) requestPermissions)
  = [alert "Allow Permissions"
       "Please allow camera and microphone permission to access camera features"
       ["Go to Settings"; "Cancel"]].
Proof.
  exact (proj1 (proj2 (proj2
    (@alert_iff_denied (answering granted denied) initialState
                       granted denied eq_refl eq_refl)))).
Defined.

(** X8: the effect has no handler for a rejected request. When the camera
    request is rejected the microphone is never asked; when either request
    is rejected nothing is written or shown, the state stays as it was and
    the effect's promise is rejected with the same reason. *)
Theorem rejected_request_is_not_handled (w : env) (s : State) (err : string) :
  w requestCameraPermission = Rejected err
  \/ ((exists cam, w requestCameraPermission = Fulfilled cam)
      /\ w requestMicrophonePermission = Rejected err) ->
  performed w requestPermissions = []
  /\ final w requestPermissions s = s
  /\ outcome w requestPermissions = Rejected err
  /\ (w requestCameraPermission = Rejected err ->
      calls w requestPermissions s = [requestCameraPermission]).
Proof.
  intros [E | [[cam Ec] Em]]; unfold calls, requestPermissions; simpl.
  - rewrite E. simpl. repeat split.
  - rewrite Ec. simpl. rewrite Em. simpl. repeat split.
    intro H. discriminate H.
Qed.

Lemma rejected_request_is_not_handled_witness :
  final (world (Rejected "x") (Rejected "x") (fun _ => Rejected "x")
               (Rejected "unavailable") (Fulfilled granted))
        requestPermissions initialState
  = initialState.
Proof.
  exact (proj1 (proj2
    (@rejected_request_is_not_handled
       (world (Rejected "x") (Rejected "x") (fun _ => Rejected "x")
              (Rejected "unavailable") (Fulfilled granted))
       initialState "unavailable" (or_introl eq_refl)))).
Defined.

(* ================================================================== *)
(** ** Buttons of the rendered tree *)

Lemma count_statusPart_none (P : element -> bool) (s : State) :
  (forall t, P (Text (Some styles.contactRowKey) t) = false) ->
  (forall t, P (Text (Some styles.contactRowValue) t) = false) ->
  (forall st cs, P (View st cs) = false) ->
  (forall st, P (ActivityIndicator st) = false) ->
  (forall st cs, P (ScrollView st cs) = false) ->
  (forall t, P (Text (Some styles.errorText) t) = false) ->
  count P (statusPart s) = 0.
Proof.
  intros Hk Hv Hw Ha Hs Ht. unfold statusPart.
  destruct (isProcessingText s); [cbn [count]; rewrite Ha; reflexivity |].
  destruct (cardIsFound s); cbn [count].
  - rewrite Hs. rewrite count_contactRows by assumption. reflexivity.
  - rewrite Ht. reflexivity.
Qed.

Lemma count_capture_button (device : option CameraDevice) (s : State) :
  count (isButton onCaptureAndRecognize) (App device s)
  = match device with
    | Some _ => if hasPermissions s then 1 else 0
    | None => 0
    end.
Proof.
  unfold App. cbn [count map isButton handler_eqb]. rewrite !list_sum_cons.
  rewrite count_statusPart_none by reflexivity.
  unfold cameraPart. destruct device as [d |]; [destruct (hasPermissions s) |];
    reflexivity.
Qed.

(** X9: the capture button and the camera view are in the tree together,
    once each, exactly when a rear device is present and the permission
    flag is up; in every other state the tree holds neither. *)
Theorem capture_controls_iff_available (device : option CameraDevice)
        (s : State) :
  (offers onCaptureAndRecognize (App device s) = true
   <-> device <> None /\ hasPermissions s = true)
  /\ count isCameraView (App device s)
     = count (isButton onCaptureAndRecognize) (App device s)
  /\ count (isButton onCaptureAndRecognize) (App device s) <= 1.
Proof.
  assert (C : count isCameraView (App device s)
              = match device with
                | Some _ => if hasPermissions s then 1 else 0
                | None => 0
                end).
  { unfold App. cbn [count map isCameraView]. rewrite !list_sum_cons.
    rewrite count_statusPart_none by reflexivity.
    unfold cameraPart.
    destruct device as [d |]; [destruct (hasPermissions s) |]; reflexivity. }
  unfold offers. rewrite C, count_capture_button.
  destruct device as [d |]; [destruct (hasPermissions s) |]; simpl;
    repeat split; try lia; try discriminate; try congruence;
    intros [H1 H2]; try discriminate H2; contradiction H1; reflexivity.
Qed.

(** X10: the gallery button is in the tree exactly once in every state,
    with or without a device or permissions, and also while a run is in
    flight and the busy indicator is shown: nothing disables it. *)
Theorem gallery_button_always_offered (device : option CameraDevice)
        (s : State) :
  count (isButton onPickAndRecognize) (App device s) = 1
  /\ offers onPickAndRecognize (App device s) = true.
Proof.
  assert (C : count (isButton onPickAndRecognize) (App device s) = 1).
  { unfold App. cbn [count map isButton handler_eqb]. rewrite !list_sum_cons.
    rewrite count_statusPart_none by reflexivity.
    unfold cameraPart.
    destruct device as [d |]; [destruct (hasPermissions s) |]; reflexivity. }
  split; [exact C |]. unfold offers. rewrite C. reflexivity.
Qed.

(** X11: cells that are not on display do not show. While the busy flag
    is up the tree depends on none of the found flag, the mapping and the
    message; with the found flag up it does not depend on the message;
    with it down it does not depend on the mapping. *)
Theorem hidden_cells_do_not_show (device : option CameraDevice)
        (s s' : State) :
  hasPermissions s = hasPermissions s' ->
  isProcessingText s = isProcessingText s' ->
  (isProcessingText s = true
   \/ (cardIsFound s = true /\ cardIsFound s' = true
       /\ contactInfo s = contactInfo s')
   \/ (cardIsFound s = false /\ cardIsFound s' = false
       /\ processedText s = processedText s')) ->
  App device s = App device s'.
Proof.
  intros Hp Hb H. unfold App, cameraPart, statusPart.
  rewrite <- Hp, <- Hb.
  destruct H as [H | [(H1 & H2 & H3) | (H1 & H2 & H3)]].
  - rewrite H. reflexivity.
  - rewrite H1, H2, H3. reflexivity.
  - rewrite H1, H2, H3. reflexivity.
Qed.

Lemma hidden_cells_do_not_show_witness :
  App None foundB
  = App None (mkState notFoundMessage true false true scenarioB).
Proof.
  apply (@hidden_cells_do_not_show None foundB
           (mkState notFoundMessage true false true scenarioB)
           eq_refl eq_refl).
  right. left. repeat split.
Defined.

(** X12: on any one host the object handed to the interpreter for a live
    capture determines the photo: two photos that differ in path, width or
    height never reach the interpreter as the same object. *)
Theorem capture_argument_injective (os : PlatformOS) (a b : PhotoFile) :
  spread_with_path (Some a) (imagePath os (Some a))
  = spread_with_path (Some b) (imagePath os (Some b)) ->
  a = b.
Proof.
  destruct a as [pa wa ha], b as [pb wb hb].
  unfold imagePath, spread_with_path.
  destruct (String.eqb os "ios"); simpl; intro H;
    injection H as Hp Hw Hh; subst; reflexivity.
Qed.

Lemma capture_argument_injective_witness :
  samplePhoto = mkPhotoFile "/data/cache/photo.jpg" 1920 1080.
Proof.
  exact (@capture_argument_injective "android" samplePhoto
           (mkPhotoFile "/data/cache/photo.jpg" 1920 1080) eq_refl).
Defined.

(* ================================================================== *)
(** ** The mounted component *)

Lemma coherent_cells (s s' : State) :
  cardIsFound s' = cardIsFound s ->
  contactInfo s' = contactInfo s ->
  processedText s' = processedText s ->
  coherent s -> coherent s'.
Proof.
  unfold coherent. intros -> -> ->. exact (fun H => H).
Qed.

Lemma keeps_validateCard (m : obj) (s : State) (h : string -> async unit) :
  coherent s -> keeps coherent (try_catch (validateCard m) h) s.
Proof.
  intros [Hf Ht]. unfold validateCard.
  destruct (Object_keys m) as [| k ks] eqn:E; simpl.
  - split; [intro F; discriminate F | right; reflexivity].
  - split; [intros _; simpl; rewrite E; discriminate | exact Ht].
Qed.

Lemma keeps_pick (s : State) :
  coherent s -> keeps coherent pickAndRecognize s.
Proof.
  intro H. unfold pickAndRecognize, then_catch. simpl.
  split; [exact H |]. intros [res | err] s1 H1; simpl.
  - split; [revert H1; apply coherent_cells; reflexivity |].
    intros [r | err] s2 H2; simpl.
    + apply keeps_validateCard. revert H2. apply coherent_cells; reflexivity.
    + revert H2. apply coherent_cells; reflexivity.
  - revert H1. apply coherent_cells; reflexivity.
Qed.

Lemma keeps_capture (os : PlatformOS) (camera : bool) (s : State) :
  coherent s -> keeps coherent (captureAndRecognize os camera) s.
Proof.
  intro H. unfold captureAndRecognize.
  assert (K : forall image s1, coherent s1 ->
    keeps coherent
      (try_catch
         (result <- await (interpretImage
                             (spread_with_path image (imagePath os image))) ;;
          perform (setIsProcessingText false) ;;
          validateCard (data_or_empty result))
         (fun err => perform (consoleLog "err:" err) ;;
                     perform (setIsProcessingText false))) s1).
  { intros image s1 H1. simpl. split; [exact H1 |].
    intros [r | err] s2 H2; simpl.
    - apply keeps_validateCard. revert H2. apply coherent_cells; reflexivity.
    - revert H2. apply coherent_cells; reflexivity. }
  destruct camera; simpl.
  - split; [revert H; apply coherent_cells; reflexivity |].
    intros [img | err] s1 H1; simpl.
    + apply (K (Some img) s1 H1).
    + revert H1. apply coherent_cells; reflexivity.
  - apply (K None). revert H. apply coherent_cells; reflexivity.
Qed.

Lemma keeps_requestPermissions (s : State) :
  coherent s -> keeps coherent requestPermissions s.
Proof.
  intro H. unfold requestPermissions. simpl.
  split; [exact H |]. intros [cam | err] s1 H1; simpl; [| exact H1].
  split; [exact H1 |]. intros [mic | err] s2 H2; simpl; [| exact H2].
  destruct (is_denied cam || is_denied mic); simpl;
    revert H2; apply coherent_cells; reflexivity.
Qed.

Lemma Forall_remove_nth {A : Type} (P : A -> Prop) (i : nat) (l : list A) :
  Forall P l -> Forall P (remove_nth i l).
Proof.
  unfold remove_nth. revert i.
  induction l as [| a l IH]; intros i H.
  - destruct i; constructor.
  - inversion H as [| ? ? Ha Hl]; subst. destruct i as [| i]; simpl.
    + exact Hl.
    + constructor; [exact Ha |]. apply IH. exact Hl.
Qed.

Lemma sound_advance (p : async unit) (s : State) (others : list task) :
  keeps coherent p s ->
  Forall (fun t => forall o s', coherent s' -> keeps coherent (resume t o) s')
         others ->
  sound (advance p s others).
Proof.
  revert s. induction p as [a | err | e k IH | c k IH]; intros s K O.
  - split; [exact K | exact O].
  - split; [exact K | exact O].
  - apply (IH (apply_effect e s)); assumption.
  - destruct K as [K1 K2]. split; [exact K1 |].
    unfold advance. simpl. apply Forall_app. split; [exact O |].
    constructor; [| constructor]. simpl. intros o s' H'. apply K2. exact H'.
Qed.

Lemma sound_step (os : PlatformOS) (device : option CameraDevice)
      (sys : system) (ev : event) :
  sound sys -> sound (step os device sys ev).
Proof.
  intros [Hu Hi]. destruct ev as [h | i w]; simpl.
  - destruct (offers h (App device (ui sys))); [| split; assumption].
    apply sound_advance; [| exact Hi].
    destruct h; unfold handler_program;
      [apply keeps_pick | apply keeps_capture]; exact Hu.
  - destruct (nth_error (inflight sys) i) as [t |] eqn:E; [| split; assumption].
    apply sound_advance; [| apply Forall_remove_nth; exact Hi].
    apply nth_error_In in E.
    rewrite Forall_forall in Hi. apply (Hi t E). exact Hu.
Qed.

Lemma sound_run_from (os : PlatformOS) (device : option CameraDevice)
      (evs : list event) (sys : system) :
  sound sys -> sound (run_from os device sys evs).
Proof.
  unfold run_from. revert sys.
  induction evs as [| ev evs IH]; intros sys H; simpl; [exact H |].
  apply IH. apply sound_step. exact H.
Qed.

(** X13: in every state the mounted component can reach, by any sequence
    of button presses and call settlements, overlapping runs included,
    the found flag is only up over a mapping that has at least one key,
    and the message is the initial text or the NotFound text. *)
Theorem reachable_states_are_coherent (os : PlatformOS)
        (device : option CameraDevice) (evs : list event) :
  let s := ui (run_from os device mounted evs) in
  (cardIsFound s = true -> Object_keys (contactInfo s) <> [])
  /\ (processedText s = processedText initialState
      \/ processedText s = notFoundMessage).
Proof.
  cbv zeta. apply (sound_run_from os device evs (sys := mounted)).
  unfold mounted. apply sound_advance; [| constructor].
  apply keeps_requestPermissions.
  split; [intro F; discriminate F | left; reflexivity].
Qed.

(* ------------------------------------------------------------------ *)
(** *** The busy flag never stays up on its own *)

Lemma settles_idle_validateCard (m : obj) (s : State)
      (h : string -> async unit) :
  isProcessingText s = false ->
  settles_idle (try_catch (validateCard m) h) s.
Proof.
  intro H. unfold validateCard.
  destruct (negb (Nat.eqb (length (Object_keys m)) 0)); simpl; exact H.
Qed.

Lemma settles_idle_pick (s : State) : settles_idle pickAndRecognize s.
Proof.
  unfold pickAndRecognize, then_catch. simpl.
  intros [res | err] s1; simpl; [| reflexivity].
  intros [r | err] s2; simpl; [| reflexivity].
  apply settles_idle_validateCard. reflexivity.
Qed.

Lemma settles_idle_capture (os : PlatformOS) (camera : bool) (s : State) :
  settles_idle (captureAndRecognize os camera) s.
Proof.
  unfold captureAndRecognize. destruct camera; simpl.
  - intros [img | err] s1; simpl; [| reflexivity].
    intros [r | err] s2; simpl; [| reflexivity].
    apply settles_idle_validateCard. reflexivity.
  - intros [r | err] s2; simpl; [| reflexivity].
    apply settles_idle_validateCard. reflexivity.
Qed.

Lemma flagless_requestPermissions : flagless requestPermissions.
Proof.
  unfold requestPermissions. simpl.
  intros [cam | err]; simpl; [| exact I].
  intros [mic | err]; simpl; [| exact I].
  destruct (is_denied cam || is_denied mic); simpl; repeat split.
Qed.

(** A run cannot both leave the busy flag alone and be sure to end with
    it down, unless it was down to begin with. *)
Lemma flagless_settles_idle {A : Type} (p : async A) (s : State) :
  flagless p -> settles_idle p s -> isProcessingText s = false.
Proof.
  revert s. induction p as [a | err | e k IH | c k IH]; intros s F S; simpl in *.
  - exact S.
  - exact S.
  - destruct F as [Fe Fk]. rewrite <- Fe. apply IH; assumption.
  - apply (IH (Rejected "") s); [apply F | apply S].
Qed.

Lemma Exists_remove_nth {A : Type} (P : A -> Prop) (i : nat) (l : list A)
      (a : A) :
  nth_error l i = Some a -> ~ P a -> Exists P l -> Exists P (remove_nth i l).
Proof.
  unfold remove_nth. revert i.
  induction l as [| b l IH]; intros i E N H.
  - inversion H.
  - destruct i as [| i]; simpl in *.
    + injection E as ->. inversion H as [? ? Hb | ? ? Hl]; subst.
      * contradiction.
      * exact Hl.
    + inversion H as [? ? Hb | ? ? Hl]; subst.
      * left. exact Hb.
      * right. apply (IH i E N Hl).
Qed.

Lemma attended_advance_idle (p : async unit) (s : State) (others : list task) :
  settles_idle p s ->
  Forall (fun t => clearing t \/ forall o, flagless (resume t o)) others ->
  attended (advance p s others).
Proof.
  revert s. induction p as [a | err | e k IH | c k IH]; intros s S O.
  - split; [exact O |]. simpl in *. intro T. congruence.
  - split; [exact O |]. simpl in *. intro T. congruence.
  - apply (IH (apply_effect e s)); assumption.
  - assert (C : clearing (mkTask c k)) by (intros o s'; apply S).
    unfold advance. simpl. split.
    + apply Forall_app. split; [exact O |].
      constructor; [left; exact C | constructor].
    + intros _. apply Exists_app. right. left. exact C.
Qed.

Lemma attended_advance_flagless (p : async unit) (s : State)
      (others : list task) :
  flagless p ->
  Forall (fun t => clearing t \/ forall o, flagless (resume t o)) others ->
  (isProcessingText s = true -> Exists clearing others) ->
  attended (advance p s others).
Proof.
  revert s. induction p as [a | err | e k IH | c k IH]; intros s F O X.
  - split; assumption.
  - split; assumption.
  - destruct F as [Fe Fk]. apply (IH (apply_effect e s)); try assumption.
    rewrite Fe. exact X.
  - unfold advance. simpl. split.
    + apply Forall_app. split; [exact O |].
      constructor; [right; exact F | constructor].
    + intro T. apply Exists_app. left. apply X. exact T.
Qed.

Lemma attended_step (os : PlatformOS) (device : option CameraDevice)
      (sys : system) (ev : event) :
  attended sys -> attended (step os device sys ev).
Proof.
  intros [Hk Hx]. destruct ev as [h | i w]; simpl.
  - destruct (offers h (App device (ui sys))); [| split; assumption].
    apply attended_advance_idle; [| exact Hk].
    destruct h; unfold handler_program;
      [apply settles_idle_pick | apply settles_idle_capture].
  - destruct (nth_error (inflight sys) i) as [t |] eqn:E; [| split; assumption].
    pose proof (Forall_remove_nth i Hk) as Hk'.
    assert (Kt : clearing t \/ forall o, flagless (resume t o)).
    { rewrite Forall_forall in Hk. apply Hk. apply (nth_error_In _ _ E). }
    destruct Kt as [C | F].
    + apply attended_advance_idle; [apply C | exact Hk'].
    + apply attended_advance_flagless; [apply F | exact Hk' |].
      intro T. apply (Exists_remove_nth (P := clearing) _ E); [| apply Hx; exact T].
      intro C.
      pose proof (flagless_settles_idle _ (ui sys)
                    (F (Rejected "")) (C (Rejected "") (ui sys))) as N.
      congruence.
Qed.

Lemma attended_run_from (os : PlatformOS) (device : option CameraDevice)
      (evs : list event) (sys : system) :
  attended sys -> attended (run_from os device sys evs).
Proof.
  unfold run_from. revert sys.
  induction evs as [| ev evs IH]; intros sys H; simpl; [exact H |].
  apply IH. apply attended_step. exact H.
Qed.

Lemma attended_mounted : attended mounted.
Proof.
  unfold mounted. apply attended_advance_flagless.
  - apply flagless_requestPermissions.
  - constructor.
  - intro T. discriminate T.
Qed.

(** X14: the busy indicator never stays on by itself. In every state the
    mounted component can reach, by any sequence of presses and
    settlements, whenever no run is in flight the busy flag is down. *)
Theorem busy_flag_down_when_nothing_in_flight (os : PlatformOS)
        (device : option CameraDevice) (evs : list event) :
  inflight (run_from os device mounted evs) = [] ->
  isProcessingText (ui (run_from os device mounted evs)) = false.
Proof.
  intro E.
  destruct (attended_run_from os device evs attended_mounted) as [_ X].
  destruct (isProcessingText (ui (run_from os device mounted evs)));
    [| reflexivity].
  specialize (X eq_refl). rewrite E in X. inversion X.
Qed.

Lemma busy_flag_down_when_nothing_in_flight_witness :
  isProcessingText
    (ui (run_from "android" (Some "back") mounted
           [settles 0 (serving (Rejected "offline"));
            settles 0 (serving (Rejected "offline"));
            press onCaptureAndRecognize;
            settles 0 (serving (Rejected "offline"));
            settles 0 (serving (Rejected "offline"))])) = false.
Proof.
  apply (@busy_flag_down_when_nothing_in_flight "android" (Some "back")).
  reflexivity.
Defined.

(* ------------------------------------------------------------------ *)
(** *** Overlapping runs *)

Lemma offers_capture (d : CameraDevice) (s : State) :
  hasPermissions s = true ->
  offers onCaptureAndRecognize (App (Some d) s) = true.
Proof.
  intro H. unfold offers. rewrite count_capture_button, H. reflexivity.
Qed.

#[local] Arguments step : simpl never.

Lemma step_press_capture (os : PlatformOS) (d : CameraDevice) (sys : system) :
  hasPermissions (ui sys) = true ->
  step os (Some d) sys (press onCaptureAndRecognize)
  = advance (captureAndRecognize os true) (ui sys) (inflight sys).
Proof.
  intro H. unfold step. rewrite (offers_capture d (ui sys) H). reflexivity.
Qed.

Lemma step_settles (os : PlatformOS) (device : option CameraDevice)
      (sys : system) (i : nat) (w : env) (t : task) :
  nth_error (inflight sys) i = Some t ->
  step os device sys (settles i w)
  = advance (resume t (w (awaited t))) (ui sys) (remove_nth i (inflight sys)).
Proof.
  intro H. unfold step. rewrite H. reflexivity.
Qed.

(** X15: the capture button is not disabled while a run is in flight, and
    a second run started by it shares the busy flag with the first: when
    the button is pressed twice and the first run comes to its end, the
    busy flag goes down although the second run is still waiting for the
    interpreter. *)
Theorem busy_flag_drops_under_overlap (os : PlatformOS) (d : CameraDevice)
        (w : env) (s : State) (img : PhotoFile) :
  hasPermissions s = true ->
  w (takePhoto photoOptions) = Fulfilled img ->
  let sys := run_from os (Some d) (mkSystem s [])
               [press onCaptureAndRecognize; press onCaptureAndRecognize;
                settles 0 w; settles 0 w; settles 0 w] in
  isProcessingText (ui sys) = false
  /\ map awaited (inflight sys)
     = [interpretImage (spread_with_path (Some img) (imagePath os (Some img)))].
Proof.
  intros Hp Hw. cbv zeta. unfold run_from. cbn [fold_left].
  repeat match goal with
         | |- context [step os (Some d) (mkSystem ?u ?l)
                            (press onCaptureAndRecognize)] =>
             rewrite (step_press_capture os d (mkSystem u l) Hp);
             unfold advance, captureAndRecognize; simpl
         | |- context [step os (Some d) (mkSystem ?u (?t :: ?l)) (settles 0 w)] =>
             rewrite (@step_settles os (Some d) (mkSystem u (t :: l)) 0 w t
                        eq_refl);
             unfold advance; simpl; rewrite ?Hw; simpl
         end.
  destruct (w (interpretImage _)) as [r | err]; simpl.
  - unfold validateCard.
    destruct (negb (Nat.eqb (length (Object_keys (data_or_empty r))) 0));
      simpl; split; reflexivity.
  - split; reflexivity.
Qed.

Lemma busy_flag_drops_under_overlap_witness :
  isProcessingText
    (ui (run_from "android" (Some "back")
           (mkSystem (apply_effect (setHasPermissions true) initialState) [])
           [press onCaptureAndRecognize; press onCaptureAndRecognize;
            settles 0 (serving (Fulfilled None));
            settles 0 (serving (Fulfilled None));
            settles 0 (serving (Fulfilled None))])) = false.
Proof.
  exact (proj1 (@busy_flag_drops_under_overlap
                  "android" "back" (serving (Fulfilled None))
                  (apply_effect (setHasPermissions true) initialState)
                  samplePhoto eq_refl eq_refl)).
Defined.

(* ------------------------------------------------------------------ *)
(** *** The camera is used under permission only *)

Lemma existsb_remove_nth {A : Type} (f : A -> bool) (i : nat) (l : list A) :
  existsb f (remove_nth i l) = true -> existsb f l = true.
Proof.
  unfold remove_nth. revert i. induction l as [| a l IH]; intros i H.
  - destruct i; exact H.
  - destruct i as [| i]; simpl in *.
    + rewrite H. apply orb_true_r.
    + apply orb_true_iff in H. destruct H as [H | H].
      * rewrite H. reflexivity.
      * rewrite (IH i H). apply orb_true_r.
Qed.

Lemma remove_nth_S {A : Type} (i : nat) (a : A) (l : list A) :
  remove_nth (S i) (a :: l) = a :: remove_nth i l.
Proof. reflexivity. Qed.

Lemma filter_remove_nth_le {A : Type} (f : A -> bool) (i : nat) (l : list A) :
  length (filter f (remove_nth i l)) <= length (filter f l).
Proof.
  revert i. induction l as [| a l IH]; intro i.
  - destruct i; simpl; lia.
  - destruct i as [| i].
    + unfold remove_nth. simpl. destruct (f a); simpl; lia.
    + rewrite remove_nth_S. specialize (IH i). simpl.
      destruct (f a); simpl; lia.
Qed.

Lemma existsb_filter_length {A : Type} (f : A -> bool) (l : list A) :
  existsb f l = true -> 1 <= length (filter f l).
Proof.
  induction l as [| a l IH]; simpl; intro H; [discriminate H |].
  destruct (f a); simpl in *; [lia | apply IH; exact H].
Qed.

Lemma only_one_removed {A : Type} (f : A -> bool) (i : nat) (l : list A)
      (a : A) :
  nth_error l i = Some a -> f a = true -> length (filter f l) <= 1 ->
  existsb f (remove_nth i l) = false.
Proof.
  revert i. induction l as [| b l IH]; intros i E Fa L.
  - destruct i; discriminate E.
  - destruct i as [| i].
    + simpl in E. injection E as ->. unfold remove_nth. simpl.
      simpl in L. rewrite Fa in L. simpl in L.
      destruct (existsb f l) eqn:X; [| reflexivity].
      apply existsb_filter_length in X. lia.
    + rewrite remove_nth_S. simpl in E. simpl in L. simpl.
      destruct (f b) eqn:Fb; simpl in *.
      * assert (X : existsb f l = true).
        { apply existsb_exists. exists a. split; [| exact Fa].
          apply (nth_error_In _ _ E). }
        apply existsb_filter_length in X. lia.
      * apply (IH i E Fa L).
Qed.

Lemma quiet_validateCard (m : obj) (h : string -> async unit) :
  quiet (try_catch (validateCard m) h).
Proof.
  unfold validateCard.
  destruct (negb (Nat.eqb (length (Object_keys m)) 0)); simpl; repeat split.
Qed.

Lemma quiet_pick : quiet pickAndRecognize.
Proof.
  unfold pickAndRecognize, then_catch. simpl. repeat split.
  intros [res | err]; simpl; repeat split.
  intros [r | err]; simpl; repeat split. apply quiet_validateCard.
Qed.

Lemma quiet_after_photo (os : PlatformOS) (s : State) :
  exists k,
    run_sync (captureAndRecognize os true) s
    = (busy s, Waiting (takePhoto photoOptions) k)
    /\ forall o, quiet (k o).
Proof.
  unfold captureAndRecognize. simpl. eexists. split; [reflexivity |].
  intros [img | err]; simpl; repeat split.
  intros [r | err]; simpl; repeat split. apply quiet_validateCard.
Qed.

Lemma gate_requestPermissions : gate requestPermissions.
Proof.
  unfold requestPermissions. simpl. split; [reflexivity |].
  intros [cam | err]; simpl; [| exact I]. split; [reflexivity |].
  intros [mic | err]; simpl; [| exact I].
  destruct (is_denied cam || is_denied mic); simpl; exact I.
Qed.

Lemma advance_finishing (p : async unit) (s : State) (others : list task) :
  finishing p -> exists s', advance p s others = mkSystem s' others.
Proof.
  revert s. induction p as [a | err | e k IH | c k IH]; intros s F.
  - exists s. reflexivity.
  - exists s. reflexivity.
  - apply (IH (apply_effect e s) F).
  - contradiction F.
Qed.

Lemma advance_gate (p : async unit) (s : State) (others : list task) :
  gate p ->
  (exists s', advance p s others = mkSystem s' others)
  \/ (exists t, advance p s others = mkSystem s (others ++ [t])
                /\ asks_permission t = true
                /\ forall o, gate (resume t o)).
Proof.
  destruct p as [a | err | e k | c k]; intro G.
  - left. exists s. reflexivity.
  - left. exists s. reflexivity.
  - left. apply (advance_finishing (Do e k) s others G).
  - right. destruct G as [Gc Gk]. exists (mkTask c k).
    split; [reflexivity |]. split; [exact Gc | exact Gk].
Qed.

Lemma advance_quiet (p : async unit) (s : State) (others : list task) :
  quiet p ->
  exists s',
    hasPermissions s' = hasPermissions s
    /\ (advance p s others = mkSystem s' others
        \/ exists t, advance p s others = mkSystem s' (others ++ [t])
                     /\ asks_permission t = false
                     /\ takes_photo t = false
                     /\ forall o, quiet (resume t o)).
Proof.
  revert s. induction p as [a | err | e k IH | c k IH]; intros s Q.
  - exists s. split; [reflexivity | left; reflexivity].
  - exists s. split; [reflexivity | left; reflexivity].
  - destruct Q as [Qe Qk].
    destruct (IH (apply_effect e s) Qk) as (s' & Hs & H).
    exists s'. split; [| exact H]. rewrite Hs.
    destruct e; try reflexivity. discriminate Qe.
  - destruct Q as (Qt & Qp & Qk). exists s. split; [reflexivity |].
    right. exists (mkTask c k). split; [reflexivity |].
    split; [exact Qp |]. split; [exact Qt | exact Qk].
Qed.

Lemma existsb_false_filter {A : Type} (f : A -> bool) (l : list A) :
  existsb f l = false -> filter f l = [].
Proof.
  induction l as [| a l IH]; simpl; intro H; [reflexivity |].
  apply orb_false_iff in H. destruct H as [Ha Hl].
  rewrite Ha. apply IH. exact Hl.
Qed.

Lemma asks_permission_not_photo (t : task) :
  asks_permission t = true -> takes_photo t = false.
Proof.
  unfold asks_permission, takes_photo. destruct (awaited t); simpl;
    intro H; try reflexivity; discriminate H.
Qed.

Lemma guarded_remove (device : option CameraDevice) (sys : system) (i : nat) :
  guarded device sys ->
  guarded device (mkSystem (ui sys) (remove_nth i (inflight sys))).
Proof.
  intros (K & U & T & P). unfold guarded. simpl.
  split; [apply Forall_remove_nth; exact K |].
  split; [pose proof (filter_remove_nth_le asks_permission i (inflight sys)); lia |].
  split; intro H; [apply T | apply P]; apply (existsb_remove_nth _ _ _ H).
Qed.

Lemma guarded_quiet (device : option CameraDevice) (p : async unit)
      (s : State) (others : list task) :
  quiet p ->
  guarded device (mkSystem s others) ->
  guarded device (advance p s others).
Proof.
  intros Q (K & U & T & P). simpl in *.
  destruct (advance_quiet p s others Q)
    as (s' & Hs & [E | (t & E & Np & Nt & Qt)]); rewrite E;
    unfold guarded; simpl; rewrite Hs.
  - repeat split; try assumption; apply T; assumption.
  - split.
    { apply Forall_app. split; [exact K |].
      constructor; [rewrite Np; exact Qt | constructor]. }
    rewrite filter_app, !existsb_app. simpl. rewrite Np, Nt. simpl.
    rewrite app_nil_r, !orb_false_r.
    repeat split; try assumption; apply T; assumption.
Qed.

Lemma guarded_step (os : PlatformOS) (device : option CameraDevice)
      (sys : system) (ev : event) :
  guarded device sys -> guarded device (step os device sys ev).
Proof.
  intro G. destruct ev as [h | i w]; unfold step.
  - destruct (offers h (App device (ui sys))) eqn:O; [| exact G].
    destruct h; unfold handler_program.
    + apply guarded_quiet; [apply quiet_pick |]. destruct sys; exact G.
    + unfold offers in O. rewrite count_capture_button in O.
      destruct device as [d |]; [| discriminate O].
      destruct (hasPermissions (ui sys)) eqn:Hp; [| discriminate O].
      destruct G as (K & U & T & P).
      destruct (quiet_after_photo os (ui sys)) as (k & E & Q).
      unfold advance. rewrite E. unfold guarded. simpl.
      split.
      { apply Forall_app. split; [exact K |].
        constructor; [exact Q | constructor]. }
      rewrite filter_app, !existsb_app. simpl.
      rewrite app_nil_r, orb_false_r.
      split; [exact U |].
      split; [intros _; split; [exact Hp | discriminate] |].
      intro H. specialize (P H). congruence.
  - destruct (nth_error (inflight sys) i) as [t |] eqn:E; [| exact G].
    pose proof (guarded_remove i G) as G'.
    destruct G as (K & U & T & P).
    assert (Kt : if asks_permission t
                 then forall o, gate (resume t o)
                 else forall o, quiet (resume t o)).
    { rewrite Forall_forall in K. apply K. apply (nth_error_In _ _ E). }
    destruct (asks_permission t) eqn:A.
    + assert (F : hasPermissions (ui sys) = false).
      { apply P. apply existsb_exists. exists t.
        split; [apply (nth_error_In _ _ E) | exact A]. }
      assert (NoPhoto : existsb takes_photo (remove_nth i (inflight sys)) = false).
      { destruct (existsb takes_photo (remove_nth i (inflight sys))) eqn:X;
          [| reflexivity].
        apply existsb_remove_nth in X. destruct (T X) as [Hp _]. congruence. }
      pose proof (only_one_removed asks_permission i (inflight sys) E A U)
        as NoPerm.
      destruct G' as (K' & U' & _ & _). simpl in K', U'.
      destruct (advance_gate (resume t (w (awaited t))) (ui sys)
                  (remove_nth i (inflight sys)) (Kt _))
        as [(s' & Es) | (t' & Es & At & Gt)]; rewrite Es;
        unfold guarded; simpl.
      * rewrite NoPhoto, NoPerm.
        split; [exact K' |]. split; [exact U' |].
        split; intro H; discriminate H.
      * split.
        { apply Forall_app. split; [exact K' |].
          constructor; [rewrite At; exact Gt | constructor]. }
        rewrite filter_app, !existsb_app. simpl.
        rewrite (existsb_false_filter _ _ NoPerm), NoPhoto, NoPerm, At.
        rewrite (asks_permission_not_photo t' At). simpl.
        split; [lia |]. split; [intro H; discriminate H | intros _; exact F].
    + apply guarded_quiet; [apply Kt | exact G'].
Qed.

Lemma guarded_run_from (os : PlatformOS) (device : option CameraDevice)
      (evs : list event) (sys : system) :
  guarded device sys -> guarded device (run_from os device sys evs).
Proof.
  unfold run_from. revert sys.
  induction evs as [| ev evs IH]; intros sys H; simpl; [exact H |].
  apply IH. apply guarded_step. exact H.
Qed.

Lemma guarded_mounted (device : option CameraDevice) :
  guarded device mounted.
Proof.
  unfold mounted, guarded. simpl. split.
  - constructor; [| constructor]. exact (proj2 gate_requestPermissions).
  - split; [lia |]. split; [intro H; discriminate H | reflexivity].
Qed.

(** X16: in every state the mounted component can reach, a photo is
    being taken only if a rear device is present and the permission flag
    is up; and as long as the permission effect is still waiting for an
    answer the flag is down, so that no photo is being taken then. *)
Theorem photo_only_under_permission (os : PlatformOS)
        (device : option CameraDevice) (evs : list event) :
  let sys := run_from os device mounted evs in
  (existsb takes_photo (inflight sys) = true ->
   hasPermissions (ui sys) = true /\ device <> None)
  /\ (existsb asks_permission (inflight sys) = true ->
      hasPermissions (ui sys) = false
      /\ existsb takes_photo (inflight sys) = false).
Proof.
  cbv zeta.
  destruct (guarded_run_from os evs (guarded_mounted device))
    as (_ & _ & T & P).
  split; [exact T |]. intro H. split; [apply P; exact H |].
  destruct (existsb takes_photo (inflight (run_from os device mounted evs)))
    eqn:X; [| reflexivity].
  destruct (T eq_refl) as [Hp _]. rewrite (P H) in Hp. discriminate Hp.
Qed.
